(** * Property Search App: the search filter, the favourites list and the
      image gallery of [src/property-search-app/src/App.jsx]

    The component keeps its data in React state cells.  An event handler
    is a closure over the values of the last render: it reads those and
    asks for new ones with [setX]; the new values are seen at the next
    render only.  The embedding keeps that reading: a handler takes the
    rendered state and the pending one, and an event runs every handler
    the JSX attaches on its propagation path against the same render.

    Modelling choices:
    - a JavaScript string is a [string] of ASCII characters: on a text
      that passes [isAsciiText] the functions [toLowerCase], [includes]
      and [parseInt] below are those of JavaScript, and the theorems
      whose truth depends on a text carry that hypothesis;
    - a JavaScript number is an integer [Z], and [NaN] where it can
      arise is [None] of [option Z]; doubles are exact on the integers
      that pass [isSafeInteger], and the theorems whose truth depends on
      the value of a number carry that hypothesis;
    - an identifier is a number or a string, compared with [===];
    - the local storage entry is written by this component only, and
      holds the list it was serialised from. *)

From Stdlib Require Import List String Ascii ZArith Bool Lia.
From Stdlib Require Import Decimal DecimalString DecimalNat Permutation.
Import ListNotations.

Local Open Scope string_scope.
Local Open Scope list_scope.
Local Open Scope Z_scope.

(* ================================================================= *)
(** ** JavaScript values *)

(** A number that may be [NaN]. *)
Definition jsnum := option Z.

Definition NaN : jsnum := None.

(** [a >= b], false as soon as [b] is [NaN]. *)
Definition js_ge (a : Z) (b : jsnum) : bool :=
  match b with
  | Some n => n <=? a
  | None => false
  end.

(** [a <= b], false as soon as [b] is [NaN]. *)
Definition js_le (a : Z) (b : jsnum) : bool :=
  match b with
  | Some n => a <=? n
  | None => false
  end.

(** [a % b]: the remainder takes the sign of the dividend, and is [NaN]
    when the divisor is zero. *)
Definition js_rem (a b : Z) : jsnum :=
  if b =? 0 then NaN else Some (Z.rem a b).

(** A string used as a condition is true exactly when it is not empty. *)
Definition truthy (s : string) : bool :=
  match s with
  | EmptyString => false
  | String _ _ => true
  end.

(** The value of the [id] field of a catalog entry. *)
Inductive JsId : Type :=
| IdNum (n : Z)
| IdStr (s : string).

(** [a === b] on identifiers: a number never equals a string. *)
Definition id_eqb (a b : JsId) : bool :=
  match a, b with
  | IdNum x, IdNum y => x =? y
  | IdStr x, IdStr y => String.eqb x y
  | _, _ => false
  end.

(* ----------------------------------------------------------------- *)
(** *** String.prototype.toLowerCase and String.prototype.includes *)

(** The small letter of a capital [A-Z], any other character as it
    is: [toLowerCase] on one ASCII character. *)
Definition lower_ascii (c : ascii) : ascii :=
  let n := nat_of_ascii c in
  if ((65 <=? n) && (n <=? 90))%nat then ascii_of_nat (n + 32) else c.

Fixpoint toLowerCase (s : string) : string :=
  match s with
  | EmptyString => EmptyString
  | String c r => String (lower_ascii c) (toLowerCase r)
  end.

(** [startsWith s t]: [t] is read at the head of [s]. *)
Fixpoint startsWith (s t : string) : bool :=
  match t, s with
  | EmptyString, _ => true
  | String _ _, EmptyString => false
  | String b t', String a s' => Ascii.eqb a b && startsWith s' t'
  end.

(** [s.includes(t)]: [t] is read somewhere in [s]. *)
Fixpoint includes (s t : string) : bool :=
  startsWith s t
  || match s with
     | EmptyString => false
     | String _ r => includes r t
     end.

(** Every character of the text is an ASCII character. *)
Fixpoint isAsciiText (s : string) : bool :=
  match s with
  | EmptyString => true
  | String c r => (nat_of_ascii c <? 128)%nat && isAsciiText r
  end.

(** The integers of magnitude at most 2^53: each is a double, and the
    double a decimal or hexadecimal text of that value is read as. *)
Definition isSafeInteger (n : Z) : bool :=
  (- 9007199254740992 <=? n) && (n <=? 9007199254740992).

Definition isSafeOption (o : option Z) : bool :=
  match o with
  | Some n => isSafeInteger n
  | None => true
  end.

(* ----------------------------------------------------------------- *)
(** *** parseInt with no radix argument *)

(** The white space and line terminators of the ASCII range, which
    [parseInt] skips at the head of an ASCII text. *)
Definition is_white (c : ascii) : bool :=
  let n := nat_of_ascii c in
  ((n =? 9) || (n =? 10) || (n =? 11) || (n =? 12) || (n =? 13) || (n =? 32))%nat.

Fixpoint trim_start (s : string) : string :=
  match s with
  | EmptyString => EmptyString
  | String c r => if is_white c then trim_start r else s
  end.

(** The value of a character as a digit: [0-9], then [a-z] or [A-Z]
    for ten and above. *)
Definition digit_value (c : ascii) : option Z :=
  let n := Z.of_nat (nat_of_ascii c) in
  if (48 <=? n) && (n <=? 57) then Some (n - 48)
  else if (97 <=? n) && (n <=? 122) then Some (n - 87)
  else if (65 <=? n) && (n <=? 90) then Some (n - 55)
  else None.

(** The longest head of [s] made of digits of the radix. *)
Fixpoint radix_digits (radix : Z) (s : string) : list Z :=
  match s with
  | EmptyString => []
  | String c r =>
      match digit_value c with
      | Some d => if d <? radix then d :: radix_digits radix r else []
      | None => []
      end
  end.

Definition digits_value (radix : Z) (ds : list Z) : Z :=
  fold_left (fun acc d => acc * radix + d) ds 0.

(** The sign read at the head, and the rest. *)
Definition read_sign (s : string) : Z * string :=
  match s with
  | String "-" r => (-1, r)
  | String "+" r => (1, r)
  | _ => (1, s)
  end.

(** The radix: sixteen after a [0x] or [0X] prefix, ten otherwise. *)
Definition read_radix (s : string) : Z * string :=
  match s with
  | String "0" (String "x" r) => (16, r)
  | String "0" (String "X" r) => (16, r)
  | _ => (10, s)
  end.

(** [parseInt] on an ASCII text.  The value is the exact integer the
    digits denote: the number JavaScript returns when that integer
    passes [isSafeInteger]. *)
Definition parseInt (s : string) : jsnum :=
  let '(sign, s1) := read_sign (trim_start s) in
  let '(radix, s2) := read_radix s1 in
  match radix_digits radix s2 with
  | [] => NaN
  | ds => Some (sign * digits_value radix ds)
  end.

(* ================================================================= *)
(** ** The data model *)

(** A catalog entry.  Only the fields the handlers read are kept;
    [images] is [None] when the entry has no such field. *)
Record Property : Type := mkProperty {
  id : JsId;
  type : string;
  price : Z;
  bedrooms : Z;
  location : string;
  images : option (list string)
}.

(** The search form: every field is the text of its control. *)
Module Filters.
Record t : Type := mk {
  type : string;
  minPrice : string;
  maxPrice : string;
  bedrooms : string;
  location : string
}.

(** The initial value of the state cell, also set by [handleReset]. *)
Definition empty : t := mk "" "" "" "" "".
End Filters.

(* ================================================================= *)
(** ** The search filter *)

(** The list [results] at the end of [handleSearch]. *)
Definition searchResults (properties : list Property) (filters : Filters.t)
  : list Property :=
  let results := properties in
  let results :=
    if truthy (Filters.type filters)
    then filter (fun p => String.eqb (toLowerCase (type p))
                                     (toLowerCase (Filters.type filters)))
                results
    else results in
  let results :=
    if truthy (Filters.minPrice filters)
    then filter (fun p => js_ge (price p) (parseInt (Filters.minPrice filters)))
                results
    else results in
  let results :=
    if truthy (Filters.maxPrice filters)
    then filter (fun p => js_le (price p) (parseInt (Filters.maxPrice filters)))
                results
    else results in
  let results :=
    if truthy (Filters.bedrooms filters)
    then filter (fun p => js_ge (bedrooms p) (parseInt (Filters.bedrooms filters)))
                results
    else results in
  let results :=
    if truthy (Filters.location filters)
    then filter (fun p => includes (toLowerCase (location p))
                                   (toLowerCase (Filters.location filters)))
                results
    else results in
  results.

(** The five stages of [searchResults] as one test: a stage whose
    control is empty lets every entry through. *)
Definition passes (filters : Filters.t) (p : Property) : bool :=
  (negb (truthy (Filters.type filters))
   || String.eqb (toLowerCase (type p)) (toLowerCase (Filters.type filters)))
  && (negb (truthy (Filters.minPrice filters))
      || js_ge (price p) (parseInt (Filters.minPrice filters)))
  && (negb (truthy (Filters.maxPrice filters))
      || js_le (price p) (parseInt (Filters.maxPrice filters)))
  && (negb (truthy (Filters.bedrooms filters))
      || js_ge (bedrooms p) (parseInt (Filters.bedrooms filters)))
  && (negb (truthy (Filters.location filters))
      || includes (toLowerCase (location p))
                  (toLowerCase (Filters.location filters))).

(* ================================================================= *)
(** ** The state cells of [PropertySearchApp] *)

Record AppState : Type := mkApp {
  properties : list Property;
  filteredProperties : list Property;
  favourites : list Property;
  selectedProperty : option Property;
  draggedProperty : option Property;
  loading : bool;
  error : option string;
  filters : Filters.t
}.

(** The values of the first render. *)
Definition initialState : AppState :=
  mkApp [] [] [] None None true None Filters.empty.

Definition setProperties (v : list Property) (s : AppState) : AppState :=
  mkApp v (filteredProperties s) (favourites s) (selectedProperty s)
        (draggedProperty s) (loading s) (error s) (filters s).

Definition setFilteredProperties (v : list Property) (s : AppState) : AppState :=
  mkApp (properties s) v (favourites s) (selectedProperty s)
        (draggedProperty s) (loading s) (error s) (filters s).

Definition setFavourites (v : list Property) (s : AppState) : AppState :=
  mkApp (properties s) (filteredProperties s) v (selectedProperty s)
        (draggedProperty s) (loading s) (error s) (filters s).

Definition setSelectedProperty (v : option Property) (s : AppState) : AppState :=
  mkApp (properties s) (filteredProperties s) (favourites s) v
        (draggedProperty s) (loading s) (error s) (filters s).

Definition setDraggedProperty (v : option Property) (s : AppState) : AppState :=
  mkApp (properties s) (filteredProperties s) (favourites s)
        (selectedProperty s) v (loading s) (error s) (filters s).

Definition setLoading (v : bool) (s : AppState) : AppState :=
  mkApp (properties s) (filteredProperties s) (favourites s)
        (selectedProperty s) (draggedProperty s) v (error s) (filters s).

Definition setError (v : option string) (s : AppState) : AppState :=
  mkApp (properties s) (filteredProperties s) (favourites s)
        (selectedProperty s) (draggedProperty s) (loading s) v (filters s).

Definition setFilters (v : Filters.t) (s : AppState) : AppState :=
  mkApp (properties s) (filteredProperties s) (favourites s)
        (selectedProperty s) (draggedProperty s) (loading s) (error s) v.

(** A handler reads the rendered state (first argument) and adds its
    requests to the pending one (second argument). *)
Definition Handler : Type := AppState -> AppState -> AppState.

(** One handler alone, fired from a render of [s]. *)
Definition run (h : Handler) (s : AppState) : AppState := h s s.

(** [f.id === i] for an entry [f]. *)
Definition has_id (i : JsId) (f : Property) : bool := id_eqb (id f) i.

(* ----------------------------------------------------------------- *)
(** *** Search handlers *)

Definition handleSearch : Handler :=
  fun cur pend =>
    setFilteredProperties (searchResults (properties cur) (filters cur)) pend.

Definition handleReset : Handler :=
  fun cur pend =>
    setFilteredProperties (properties cur) (setFilters Filters.empty pend).

(* ----------------------------------------------------------------- *)
(** *** Favourites handlers *)

Definition addToFavourites (property : Property) : Handler :=
  fun cur pend =>
    match find (has_id (id property)) (favourites cur) with
    | None => setFavourites (favourites cur ++ [property]) pend
    | Some _ => pend
    end.

Definition removeFromFavourites (i : JsId) : Handler :=
  fun cur pend =>
    setFavourites (filter (fun f => negb (has_id i f)) (favourites cur)) pend.

(** [confirmed] is the answer of [window.confirm]. *)
Definition clearFavourites (confirmed : bool) : Handler :=
  fun cur pend =>
    if confirmed then setFavourites [] pend else pend.

(** The [onToggleFavourite] closure built for a result card and for the
    detail page. *)
Definition onToggleFavourite (property : Property) : Handler :=
  fun cur pend =>
    if existsb (has_id (id property)) (favourites cur)
    then removeFromFavourites (id property) cur pend
    else addToFavourites property cur pend.

(** [isFavourite] as the cards and the detail page receive it. *)
Definition isFavourite (favs : list Property) (i : JsId) : bool :=
  existsb (has_id i) favs.

(* ----------------------------------------------------------------- *)
(** *** Drag and drop handlers *)

Definition handleDragStart (property : Property) : Handler :=
  fun _ pend => setDraggedProperty (Some property) pend.

(** Only [preventDefault]: no state cell is touched. *)
Definition handleDragOver : Handler :=
  fun _ pend => pend.

Definition handleDropOnFavourites : Handler :=
  fun cur pend =>
    let pend :=
      match draggedProperty cur with
      | Some dragged =>
          match find (has_id (id dragged)) (favourites cur) with
          | None => setFavourites (favourites cur ++ [dragged]) pend
          | Some _ => pend
          end
      | None => pend
      end in
    setDraggedProperty None pend.

Definition handleDropRemove : Handler :=
  fun cur pend =>
    let pend :=
      match draggedProperty cur with
      | Some dragged => removeFromFavourites (id dragged) cur pend
      | None => pend
      end in
    setDraggedProperty None pend.

(* ----------------------------------------------------------------- *)
(** *** Events and the handlers the JSX attaches to them *)

Inductive Field : Type := FType | FMinPrice | FMaxPrice | FBedrooms | FLocation.

(** [{...filters, field: value}] *)
Definition setField (fld : Field) (value : string) (f : Filters.t) : Filters.t :=
  match fld with
  | FType =>
      Filters.mk value (Filters.minPrice f) (Filters.maxPrice f)
                 (Filters.bedrooms f) (Filters.location f)
  | FMinPrice =>
      Filters.mk (Filters.type f) value (Filters.maxPrice f)
                 (Filters.bedrooms f) (Filters.location f)
  | FMaxPrice =>
      Filters.mk (Filters.type f) (Filters.minPrice f) value
                 (Filters.bedrooms f) (Filters.location f)
  | FBedrooms =>
      Filters.mk (Filters.type f) (Filters.minPrice f) (Filters.maxPrice f)
                 value (Filters.location f)
  | FLocation =>
      Filters.mk (Filters.type f) (Filters.minPrice f) (Filters.maxPrice f)
                 (Filters.bedrooms f) value
  end.

Definition onChange (fld : Field) (value : string) : Handler :=
  fun cur pend => setFilters (setField fld value (filters cur)) pend.

(** The two branches of the [fetch] promise. *)
Definition onCatalog (data : list Property) : Handler :=
  fun _ pend => setLoading false (setFilteredProperties data (setProperties data pend)).

Definition onCatalogError : Handler :=
  fun _ pend =>
    setLoading false
      (setError (Some "Failed to load properties. Please ensure properties.json exists in the public folder.")
                pend).

Definition onSelect (property : Property) : Handler :=
  fun _ pend => setSelectedProperty (Some property) pend.

Definition onBack : Handler :=
  fun _ pend => setSelectedProperty None pend.

Inductive Event : Type :=
| CatalogLoaded (data : list Property)
| CatalogFailed
| Change (fld : Field) (value : string)
| Submit
| ClickReset
| ClickHeart (property : Property)
| ClickRemove (property : Property)
| ClickClearAll (confirmed : bool)
| ClickSelect (property : Property)
| ClickBack
| DragStart (property : Property)
| DragOverZone
| DropOnFavourites
| DropOnRemoveZone
| DragEnd.

(** The handlers fired by an event, in propagation order.  The remove
    zone is a child of the favourites card and its [onDrop] does not stop
    the propagation, so a drop on it reaches the [onDrop] of the card
    too.  No element has an [onDragEnd], and no element outside the card
    has an [onDrop]: a drag released anywhere else fires nothing. *)
Definition handlers (e : Event) : list Handler :=
  match e with
  | CatalogLoaded data => [onCatalog data]
  | CatalogFailed => [onCatalogError]
  | Change fld value => [onChange fld value]
  | Submit => [handleSearch]
  | ClickReset => [handleReset]
  | ClickHeart property => [onToggleFavourite property]
  | ClickRemove property => [removeFromFavourites (id property)]
  | ClickClearAll confirmed => [clearFavourites confirmed]
  | ClickSelect property => [onSelect property]
  | ClickBack => [onBack]
  | DragStart property => [handleDragStart property]
  | DragOverZone => [handleDragOver]
  | DropOnFavourites => [handleDropOnFavourites]
  | DropOnRemoveZone => [handleDropRemove; handleDropOnFavourites]
  | DragEnd => []
  end.

(** All the handlers of one event read the same render; the requests
    are applied in order, the last one on a cell wins. *)
Definition dispatch (e : Event) (s : AppState) : AppState :=
  fold_left (fun pend h => h s pend) (handlers e) s.

(* ----------------------------------------------------------------- *)
(** *** The persisted snapshot *)

(** The application together with the [propertyFavourites] entry of
    the local storage; the entry holds the list it was written from. *)
Record World : Type := mkWorld {
  app : AppState;
  storage : option (list Property)
}.

(** The effect on [favourites]: the entry is overwritten with the
    rendered list.  It runs when the cell was set; a write of the same
    content is not observable, so the model writes after every event. *)
Definition saveEffect (w : World) : World :=
  mkWorld (app w) (Some (favourites (app w))).

(** The effect that reads the entry once, when the component mounts. *)
Definition loadEffect (saved : option (list Property)) : Handler :=
  fun _ pend =>
    match saved with
    | Some parsed => setFavourites parsed pend
    | None => pend
    end.

(** A page load.  The effects of the first render read the entry and
    then save the empty list of that render; the next render saves the
    list that was read. *)
Definition mount (saved : option (list Property)) : World :=
  saveEffect
    (mkWorld (run (loadEffect saved) initialState)
             (Some (favourites initialState))).

(** [Reload] is a reload of the page, by the browser or by the Retry
    button of the error box ([window.location.reload()]). *)
Inductive WorldEvent : Type :=
| Ui (e : Event)
| Reload.

Definition step (w : World) (e : WorldEvent) : World :=
  match e with
  | Ui e => saveEffect (mkWorld (dispatch e (app w)) (storage w))
  | Reload => mount (storage w)
  end.

(** The states of the application, from a first visit on. *)
Inductive reachable : World -> Prop :=
| reach_first : reachable (mount None)
| reach_step w e : reachable w -> reachable (step w e).

(** No two entries carry the same identifier. *)
Definition distinct_ids (favs : list Property) : Prop :=
  NoDup (List.map id favs).

(* ================================================================= *)
(** ** The cards and the detail page *)

Definition default_image : string := "/images/default.jpg".

(** [imageUrl] of [PropertyCard]: [property.images?.[0] || default]. *)
Definition cardImageUrl (property : Property) : string :=
  match images property with
  | Some (first :: _) => if truthy first then first else default_image
  | _ => default_image
  end.

(** [images] of [PropertyDetail]: [property.images || [default]].  An
    array is a true condition whatever its length, so only a missing
    field takes the right-hand side. *)
Definition detailImages (property : Property) : list string :=
  match images property with
  | Some imgs => imgs
  | None => [default_image]
  end.

Inductive Tab : Type := TabDescription | TabFloorplan | TabMap.

Record DetailState : Type := mkDetail {
  currentImageIndex : jsnum;
  activeTab : Tab
}.

Definition initialDetail : DetailState := mkDetail (Some 0) TabDescription.

Definition count (property : Property) : Z :=
  Z.of_nat (List.length (detailImages property)).

Definition nextImage (property : Property) (d : DetailState) : DetailState :=
  mkDetail
    (match currentImageIndex d with
     | Some i => js_rem (i + 1) (count property)
     | None => NaN
     end)
    (activeTab d).

Definition prevImage (property : Property) (d : DetailState) : DetailState :=
  mkDetail
    (match currentImageIndex d with
     | Some i => js_rem (i - 1 + count property) (count property)
     | None => NaN
     end)
    (activeTab d).

(** [images[currentImageIndex]], the source of the gallery image;
    [None] is [undefined]. *)
Definition galleryImage (property : Property) (d : DetailState) : option string :=
  match currentImageIndex d with
  | Some i => if i <? 0 then None else nth_error (detailImages property) (Z.to_nat i)
  | None => None
  end.

(** The previous and next buttons are rendered when
    [images.length > 1]. *)
Definition controlsShown (property : Property) : bool :=
  1 <? count property.

(** [n] presses of the next button. *)
Fixpoint pressNext (n : nat) (property : Property) (d : DetailState) : DetailState :=
  match n with
  | O => d
  | S k => pressNext k property (nextImage property d)
  end.

(* ================================================================= *)
(** ** The filter as the specification words it *)

(** Search criteria: every field is optional, a price or a bedroom
    count is an integer. *)
Module Criteria.
Record t : Type := mk {
  type : option string;
  minPrice : option Z;
  maxPrice : option Z;
  bedrooms : option Z;
  location : option string
}.

Definition none : t := mk None None None None None.
End Criteria.

(** Two characters are the same letter: they are equal, or one is a
    capital [A-Z] (codes 65 to 90) and the other the small letter of
    the same rank (codes 97 to 122). *)
Inductive same_letter : ascii -> ascii -> Prop :=
| same_exact c : same_letter c c
| same_capital_small n :
    (65 <= n <= 90)%nat ->
    same_letter (ascii_of_nat n) (ascii_of_nat (n + 32))
| same_small_capital n :
    (65 <= n <= 90)%nat ->
    same_letter (ascii_of_nat (n + 32)) (ascii_of_nat n).

(** Equality of two strings up to the case of their letters. *)
Inductive eq_nocase : string -> string -> Prop :=
| eq_nocase_nil : eq_nocase "" ""
| eq_nocase_cons a b s t :
    same_letter a b -> eq_nocase s t ->
    eq_nocase (String a s) (String b t).

(** [t] occurs in [s] up to the case of the letters. *)
Definition SubstringNoCase (t s : string) : Prop :=
  exists before middle after,
    s = (before ++ middle ++ after)%string /\ eq_nocase middle t.

(** [t] occurs in [s]. *)
Definition Substring (t s : string) : Prop :=
  exists before after, s = (before ++ t ++ after)%string.

(** A catalog entry passes every criterion that is present; an empty
    type is no criterion. *)
Definition Satisfies (c : Criteria.t) (p : Property) : Prop :=
  (forall t, Criteria.type c = Some t -> t <> "" -> eq_nocase (type p) t)
  /\ (forall n, Criteria.minPrice c = Some n -> n <= price p)
  /\ (forall n, Criteria.maxPrice c = Some n -> price p <= n)
  /\ (forall n, Criteria.bedrooms c = Some n -> n <= bedrooms p)
  /\ (forall t, Criteria.location c = Some t ->
                SubstringNoCase t (location p)).

(** The same, as a test. *)
Definition satisfies (c : Criteria.t) (p : Property) : bool :=
  match Criteria.type c with
  | Some t => negb (truthy t) || String.eqb (toLowerCase (type p)) (toLowerCase t)
  | None => true
  end
  && match Criteria.minPrice c with Some n => n <=? price p | None => true end
  && match Criteria.maxPrice c with Some n => price p <=? n | None => true end
  && match Criteria.bedrooms c with Some n => n <=? bedrooms p | None => true end
  && match Criteria.location c with
     | Some t => includes (toLowerCase (location p)) (toLowerCase t)
     | None => true
     end.

(** The text of a control stands for an optional string: empty when
    the criterion is absent. *)
Definition text_reads (s : string) (o : option string) : Prop :=
  match o with
  | Some t => s = t
  | None => s = ""
  end.

(** The text of a control stands for an optional integer: empty when
    the criterion is absent, else a text [parseInt] reads as it. *)
Definition number_reads (s : string) (o : option Z) : Prop :=
  match o with
  | Some n => parseInt s = Some n
  | None => s = ""
  end.

(** The form [f] holds the criteria [c]. *)
Definition reads (f : Filters.t) (c : Criteria.t) : Prop :=
  text_reads (Filters.type f) (Criteria.type c)
  /\ number_reads (Filters.minPrice f) (Criteria.minPrice c)
  /\ number_reads (Filters.maxPrice f) (Criteria.maxPrice c)
  /\ number_reads (Filters.bedrooms f) (Criteria.bedrooms c)
  /\ text_reads (Filters.location f) (Criteria.location c).

(** A numeric control whose text, of ASCII characters, is not empty
    and holds no number for [parseInt]. *)
Definition unreadable (s : string) : Prop :=
  isAsciiText s = true /\ truthy s = true /\ parseInt s = NaN.

(** The texts of a catalog entry are ASCII and its numbers are safe
    integers. *)
Definition plainProperty (p : Property) : bool :=
  isAsciiText (type p) && isAsciiText (location p)
  && isSafeInteger (price p) && isSafeInteger (bedrooms p).

Definition plainCatalog (l : list Property) : bool := forallb plainProperty l.

(** The five texts of the form are ASCII. *)
Definition plainForm (f : Filters.t) : bool :=
  isAsciiText (Filters.type f) && isAsciiText (Filters.minPrice f)
  && isAsciiText (Filters.maxPrice f) && isAsciiText (Filters.bedrooms f)
  && isAsciiText (Filters.location f).

(** The texts of the criteria are ASCII and their bounds are safe
    integers. *)
Definition plainCriteria (c : Criteria.t) : bool :=
  isAsciiText (match Criteria.type c with Some t => t | None => "" end)
  && isSafeOption (Criteria.minPrice c) && isSafeOption (Criteria.maxPrice c)
  && isSafeOption (Criteria.bedrooms c)
  && isAsciiText (match Criteria.location c with Some t => t | None => "" end).

(** The decimal text of an integer, as typed in a number control. *)
Definition decimal (z : Z) : string :=
  let digits := NilEmpty.string_of_uint (Nat.to_uint (Z.to_nat (Z.abs z))) in
  if z <? 0 then String "-" digits else digits.

Definition text_of (o : option string) : string :=
  match o with
  | Some t => t
  | None => ""
  end.

Definition number_text_of (o : option Z) : string :=
  match o with
  | Some n => decimal n
  | None => ""
  end.

(** A form that holds given criteria. *)
Definition form_of (c : Criteria.t) : Filters.t :=
  Filters.mk (text_of (Criteria.type c))
             (number_text_of (Criteria.minPrice c))
             (number_text_of (Criteria.maxPrice c))
             (number_text_of (Criteria.bedrooms c))
             (text_of (Criteria.location c)).

(** [Erased i l l']: [l'] is [l] read from left to right with every
    entry of identifier [i] left out and every other entry kept. *)
Inductive Erased (i : JsId) : list Property -> list Property -> Prop :=
| Erased_nil : Erased i [] []
| Erased_drop f l l' : id f = i -> Erased i l l' -> Erased i (f :: l) l'
| Erased_keep f l l' : id f <> i -> Erased i l l' -> Erased i (f :: l) (f :: l').

(* ================================================================= *)
(** ** Sample data *)

Module Sample.

Definition semi : Property :=
  mkProperty (IdStr "prop1") "House" 100000 2 "Petts Wood Road, Orpington BR5"
             (Some ["/images/prop1/1.jpg"; "/images/prop1/2.jpg"; "/images/prop1/3.jpg"]).

Definition flat : Property :=
  mkProperty (IdStr "prop2") "Flat" 250000 1 "Crofton Road, Orpington BR6"
             (Some ["/images/prop2/1.jpg"]).

Definition villa : Property :=
  mkProperty (IdNum 7) "Bungalow" 400000 4 "Mill Lane, Sevenoaks TN13" None.

(** An entry whose gallery is an empty array. *)
Definition bare : Property :=
  mkProperty (IdNum 8) "Flat" 180000 1 "High Street, Bromley BR1" (Some []).

Definition catalog : list Property := [semi; flat; villa].

Definition loaded : AppState :=
  dispatch (CatalogLoaded catalog) initialState.

(** The form after [150000] was typed as the minimum price. *)
Definition minPrice150000 : AppState :=
  dispatch (Change FMinPrice "150000") loaded.

Definition criteria150000 : Criteria.t :=
  Criteria.mk None (Some 150000) None None None.

(** The form after [FLAT] was chosen as type and [ORPINGTON] typed as
    location, on top of the minimum price. *)
Definition capitals150000 : AppState :=
  dispatch (Change FLocation "ORPINGTON")
           (dispatch (Change FType "FLAT") minPrice150000).

Definition criteriaCapitals : Criteria.t :=
  Criteria.mk (Some "FLAT") (Some 150000) None None (Some "ORPINGTON").

(** The form with a minimum price that is no number. *)
Definition minPriceAbc : AppState :=
  dispatch (Change FMinPrice "abc") loaded.

(** [flat] is a favourite and [semi] is being dragged. *)
Definition dragging : AppState :=
  dispatch (DragStart semi) (dispatch (ClickHeart flat) loaded).

Definition afterTwoEvents : World :=
  step (step (mount None) (Ui (CatalogLoaded catalog))) (Ui (ClickHeart flat)).

Definition onSecondImage : DetailState := mkDetail (Some 1) TabFloorplan.

End Sample.

(* ================================================================= *)
(** ** The rest of the component *)

(** Events one after the other, each fired from the render the one
    before has left. *)
Definition dispatchAll (es : list Event) (s : AppState) : AppState :=
  fold_left (fun s e => dispatch e s) es s.

(** What [PropertySearchApp] returns.  The tests are made in this
    order: a selected entry, then [loading], then [error]. *)
Inductive Screen : Type :=
| ScreenDetail (property : Property)
| ScreenLoading
| ScreenError (message : string)
| ScreenMain.

Definition view (s : AppState) : Screen :=
  match selectedProperty s with
  | Some property => ScreenDetail property
  | None =>
      if loading s then ScreenLoading
      else match error s with
           | Some message =>
               if truthy message then ScreenError message else ScreenMain
           | None => ScreenMain
           end
  end.

(** [property.location.split(',')[0]] of [PropertyCard]: the text
    before the first comma, the whole text when it has none. *)
Fixpoint firstSegment (s : string) : string :=
  match s with
  | EmptyString => EmptyString
  | String c r =>
      if Ascii.eqb c "," then EmptyString else String c (firstSegment r)
  end.

Definition cardLocation (property : Property) : string :=
  firstSegment (location property).

(** [s] has no comma. *)
Fixpoint commaFree (s : string) : bool :=
  match s with
  | EmptyString => true
  | String c r => negb (Ascii.eqb c ",") && commaFree r
  end.

(* ----------------------------------------------------------------- *)
(** *** The controls of [PropertyDetail] *)

Definition setCurrentImageIndex (v : jsnum) (d : DetailState) : DetailState :=
  mkDetail v (activeTab d).

Definition setActiveTab (v : Tab) (d : DetailState) : DetailState :=
  mkDetail (currentImageIndex d) v.

Inductive DetailEvent : Type :=
| ClickPrev
| ClickNext
| ClickThumbnail (index : nat)
| ClickTab (tab : Tab).

(** The two arrows and the thumbnails are rendered when
    [images.length > 1], one thumbnail for each index of [images]; a
    control that is not rendered cannot be clicked, and leaves the state
    as it is here.  The three tab buttons are always rendered. *)
Definition detailDispatch (property : Property) (e : DetailEvent)
    (d : DetailState) : DetailState :=
  match e with
  | ClickPrev => if controlsShown property then prevImage property d else d
  | ClickNext => if controlsShown property then nextImage property d else d
  | ClickThumbnail index =>
      if controlsShown property
         && (index <? List.length (detailImages property))%nat
      then setCurrentImageIndex (Some (Z.of_nat index)) d
      else d
  | ClickTab tab => setActiveTab tab d
  end.

Definition detailDispatchAll (property : Property) (es : list DetailEvent)
    (d : DetailState) : DetailState :=
  fold_left (fun d e => detailDispatch property e d) es d.

(** No event of the list is the arrival of the catalog. *)
Definition noCatalogLoaded (es : list Event) : Prop :=
  forall data, ~ In (CatalogLoaded data) es.

(* ----------------------------------------------------------------- *)
(** *** More sample data *)

Module Scenario.

(** [flat] and [villa] are favourites, in that order. *)
Definition twoFavourites : AppState :=
  dispatch (ClickHeart Sample.villa) (dispatch (ClickHeart Sample.flat) Sample.loaded).

(** The form asks for prices from 300000 up to 200000. *)
Definition crossedBounds : AppState :=
  dispatch (Change FMaxPrice "200000") (dispatch (Change FMinPrice "300000") Sample.loaded).

Definition visited : World :=
  step (step (step (mount None) (Ui (CatalogLoaded Sample.catalog)))
             (Ui (ClickHeart Sample.villa)))
       (Ui (Change FLocation "orpington")).

Definition browsing : list Event :=
  [Change FType "flat"; Submit; Change FType ""; Change FMinPrice "150000";
   ClickHeart Sample.flat].

Definition gallerySession : list DetailEvent :=
  [ClickNext; ClickNext; ClickNext; ClickTab TabMap; ClickPrev; ClickThumbnail 2;
   ClickThumbnail 7; ClickNext].

End Scenario.

(* ================================================================= *)
(** ** Facts on the JavaScript values *)

Lemma id_eqb_eq (a b : JsId) : id_eqb a b = true <-> a = b.
Proof.
  destruct a as [x|x], b as [y|y]; simpl; split; intros H;
    try discriminate; try congruence.
  - apply Z.eqb_eq in H. now subst.
  - injection H as ->. apply Z.eqb_refl.
  - apply String.eqb_eq in H. now subst.
  - injection H as ->. apply String.eqb_refl.
Qed.

Lemma id_eqb_refl (a : JsId) : id_eqb a a = true.
Proof. now apply id_eqb_eq. Qed.

Lemma id_eqb_neq (a b : JsId) : id_eqb a b = false <-> a <> b.
Proof.
  split.
  - intros H E. apply id_eqb_eq in E. congruence.
  - intros H. destruct (id_eqb a b) eqn:E; [|reflexivity].
    apply id_eqb_eq in E. contradiction.
Qed.

Lemma truthy_false (s : string) : truthy s = false <-> s = "".
Proof. destruct s; simpl; split; congruence. Qed.

Lemma startsWith_spec (s t : string) :
  startsWith s t = true <-> exists after, s = (t ++ after)%string.
Proof.
  revert s. induction t as [|b t IH]; intros s.
  - destruct s; simpl; split; trivial; intros _; eexists; reflexivity.
  - destruct s as [|a s]; simpl.
    + split; [discriminate | intros [r H]; discriminate].
    + rewrite andb_true_iff, Ascii.eqb_eq, IH. split.
      * intros [-> [r ->]]. now exists r.
      * intros [r H]. injection H as -> ->. split; [reflexivity | now exists r].
Qed.

Lemma includes_spec (s t : string) :
  includes s t = true <-> Substring t s.
Proof.
  unfold Substring. induction s as [|a s IH].
  - cbn [includes]. rewrite orb_false_r, startsWith_spec. split.
    + intros [r H]. now exists "", r.
    + intros [[|x before] [r H]]; [now exists r | discriminate].
  - cbn [includes]. rewrite orb_true_iff, startsWith_spec, IH. split.
    + intros [[r H] | [before [r H]]].
      * now exists "", r.
      * exists (String a before), r. simpl. now rewrite H.
    + intros [[|x before] [r H]].
      * left. now exists r.
      * right. simpl in H. injection H as _ H. now exists before, r.
Qed.

Lemma lower_ascii_cases (c : ascii) :
  ((65 <= nat_of_ascii c <= 90)%nat
   /\ lower_ascii c = ascii_of_nat (nat_of_ascii c + 32))
  \/ (~ (65 <= nat_of_ascii c <= 90)%nat /\ lower_ascii c = c).
Proof.
  unfold lower_ascii.
  destruct (Nat.leb_spec 65 (nat_of_ascii c)), (Nat.leb_spec (nat_of_ascii c) 90);
    cbn [andb]; [left | right | right | right]; split; try reflexivity; lia.
Qed.

(** [lower_ascii] sends two characters to the same one exactly when
    they are the same letter. *)
Lemma same_letter_spec (a b : ascii) :
  same_letter a b <-> lower_ascii a = lower_ascii b.
Proof.
  split.
  - intros [c | n Hn | n Hn]; [reflexivity | |].
    + destruct (lower_ascii_cases (ascii_of_nat n)) as [[_ E] | [E _]];
        destruct (lower_ascii_cases (ascii_of_nat (n + 32))) as [[E' _] | [_ E']];
        rewrite ?nat_ascii_embedding in * by lia; try lia.
      now rewrite E, E'.
    + destruct (lower_ascii_cases (ascii_of_nat n)) as [[_ E] | [E _]];
        destruct (lower_ascii_cases (ascii_of_nat (n + 32))) as [[E' _] | [_ E']];
        rewrite ?nat_ascii_embedding in * by lia; try lia.
      now rewrite E, E'.
  - intros H.
    destruct (lower_ascii_cases a) as [[Ha Ea] | [Ha Ea]];
      destruct (lower_ascii_cases b) as [[Hb Eb] | [Hb Eb]];
      rewrite Ea, Eb in H.
    + apply (f_equal nat_of_ascii) in H.
      rewrite !nat_ascii_embedding in H by lia.
      assert (E : nat_of_ascii a = nat_of_ascii b) by lia.
      apply (f_equal ascii_of_nat) in E.
      rewrite !ascii_nat_embedding in E. subst. constructor.
    + rewrite <- H, <- (ascii_nat_embedding a) at 1.
      now apply same_capital_small.
    + rewrite H. rewrite <- (ascii_nat_embedding b) at 2.
      now apply same_small_capital.
    + subst. constructor.
Qed.

Lemma eq_nocase_spec (s t : string) :
  eq_nocase s t <-> toLowerCase s = toLowerCase t.
Proof.
  split.
  - induction 1 as [|a b s t Hab Hst IH]; simpl; [reflexivity|].
    apply same_letter_spec in Hab. congruence.
  - revert t. induction s as [|a s IH]; intros [|b t] H; simpl in H;
      try discriminate.
    + constructor.
    + injection H as Hc Hr. constructor; [now apply same_letter_spec | auto].
Qed.

Lemma toLowerCase_app (s t : string) :
  toLowerCase (s ++ t) = (toLowerCase s ++ toLowerCase t)%string.
Proof. induction s as [|c s IH]; simpl; [reflexivity | now rewrite IH]. Qed.

Lemma toLowerCase_split (s x y : string) :
  toLowerCase s = (x ++ y)%string ->
  exists a b, s = (a ++ b)%string /\ toLowerCase a = x /\ toLowerCase b = y.
Proof.
  revert s. induction x as [|c x IH]; intros s H.
  - now exists "", s.
  - destruct s as [|d s]; [discriminate|]. simpl in H. injection H as Hc Hr.
    destruct (IH s Hr) as (a & b & -> & Ha & Hb).
    exists (String d a), b. simpl. now rewrite Hc, Ha.
Qed.

(** The test of the code on the two folded texts decides the
    occurrence up to case. *)
Lemma includes_nocase_spec (s t : string) :
  includes (toLowerCase s) (toLowerCase t) = true <-> SubstringNoCase t s.
Proof.
  rewrite includes_spec. unfold Substring, SubstringNoCase. split.
  - intros (x & z & H).
    destruct (toLowerCase_split _ _ _ H) as (a & r & -> & Ha & Hr).
    destruct (toLowerCase_split _ _ _ Hr) as (m & b & -> & Hm & Hb).
    exists a, m, b. split; [reflexivity | now apply eq_nocase_spec].
  - intros (a & m & b & -> & Hm). apply eq_nocase_spec in Hm.
    exists (toLowerCase a), (toLowerCase b).
    now rewrite !toLowerCase_app, Hm.
Qed.

Lemma filter_filter {A : Type} (f g : A -> bool) (l : list A) :
  filter g (filter f l) = filter (fun x => f x && g x) l.
Proof.
  induction l as [|x l IH]; simpl; [reflexivity|].
  destruct (f x); simpl; [destruct (g x)|]; now rewrite IH.
Qed.

Lemma filter_true {A : Type} (f : A -> bool) (l : list A) :
  (forall x, f x = true) -> filter f l = l.
Proof.
  intros H. induction l as [|x l IH]; simpl; [reflexivity|].
  now rewrite H, IH.
Qed.

Lemma filter_false {A : Type} (f : A -> bool) (l : list A) :
  (forall x, f x = false) -> filter f l = [].
Proof.
  intros H. induction l as [|x l IH]; simpl; [reflexivity|].
  now rewrite H.
Qed.

(* ================================================================= *)
(** ** The search filter *)

Lemma stage_filter {A : Type} (b : bool) (g : A -> bool) (l : list A) :
  (if b then filter g l else l) = filter (fun x => negb b || g x) l.
Proof.
  destruct b; simpl; [reflexivity|].
  symmetry. now apply filter_true.
Qed.

(** The stages of the search compose into one pass over the catalog. *)
Lemma searchResults_passes (l : list Property) (f : Filters.t) :
  searchResults l f = filter (passes f) l.
Proof.
  unfold searchResults.
  rewrite !stage_filter, !filter_filter.
  apply filter_ext. intros p. unfold passes. now rewrite !andb_assoc.
Qed.

Lemma parseInt_truthy (s : string) (n : Z) :
  parseInt s = Some n -> truthy s = true.
Proof. destruct s; [discriminate | reflexivity]. Qed.

Lemma includes_empty (s : string) : includes s "" = true.
Proof. destruct s; reflexivity. Qed.

Lemma number_stage (s : string) (o : option Z) (cmp : jsnum -> bool) :
  number_reads s o ->
  negb (truthy s) || cmp (parseInt s)
  = match o with
    | Some n => cmp (Some n)
    | None => true
    end.
Proof.
  destruct o as [n|]; simpl.
  - intros H. now rewrite (parseInt_truthy _ _ H), H.
  - intros ->. reflexivity.
Qed.

Lemma type_stage (s : string) (o : option string) (x : string) :
  text_reads s o ->
  negb (truthy s) || String.eqb x (toLowerCase s)
  = match o with
    | Some t => negb (truthy t) || String.eqb x (toLowerCase t)
    | None => true
    end.
Proof. destruct o as [t|]; simpl; intros ->; reflexivity. Qed.

Lemma location_stage (s : string) (o : option string) (x : string) :
  text_reads s o ->
  negb (truthy s) || includes x (toLowerCase s)
  = match o with
    | Some t => includes x (toLowerCase t)
    | None => true
    end.
Proof.
  destruct o as [t|]; simpl; intros ->; [|reflexivity].
  destruct t; simpl; [now rewrite includes_empty | reflexivity].
Qed.

(** On a form that holds the criteria [c], the test of the code is the
    test of the specification. *)
Lemma passes_reads (f : Filters.t) (c : Criteria.t) (p : Property) :
  reads f c -> passes f p = satisfies c p.
Proof.
  intros (Ht & Hmin & Hmax & Hbed & Hloc).
  unfold passes, satisfies.
  rewrite (type_stage _ _ _ Ht), (location_stage _ _ _ Hloc).
  rewrite (number_stage _ _ (js_ge (price p)) Hmin).
  rewrite (number_stage _ _ (js_le (price p)) Hmax).
  rewrite (number_stage _ _ (js_ge (bedrooms p)) Hbed).
  destruct (Criteria.minPrice c), (Criteria.maxPrice c), (Criteria.bedrooms c);
    reflexivity.
Qed.

Lemma bound_spec (o : option Z) (test : Z -> bool) (P : Z -> Prop) :
  (forall n, test n = true <-> P n) ->
  match o with Some n => test n | None => true end = true
  <-> (forall n, o = Some n -> P n).
Proof.
  intros H. destruct o as [n|].
  - rewrite H. split; [intros HP m [= <-]; exact HP | auto].
  - split; [intros _ m; discriminate | reflexivity].
Qed.

(** The test [satisfies] decides [Satisfies]. *)
Lemma satisfies_spec (c : Criteria.t) (p : Property) :
  satisfies c p = true <-> Satisfies c p.
Proof.
  unfold satisfies, Satisfies. rewrite !andb_true_iff.
  rewrite (bound_spec (Criteria.minPrice c) (fun n => n <=? price p)
                      (fun n => n <= price p)) by (intros; apply Z.leb_le).
  rewrite (bound_spec (Criteria.maxPrice c) (fun n => price p <=? n)
                      (fun n => price p <= n)) by (intros; apply Z.leb_le).
  rewrite (bound_spec (Criteria.bedrooms c) (fun n => n <=? bedrooms p)
                      (fun n => n <= bedrooms p)) by (intros; apply Z.leb_le).
  assert (Hty :
    match Criteria.type c with
    | Some t => negb (truthy t) || String.eqb (toLowerCase (type p)) (toLowerCase t)
    | None => true
    end = true
    <-> (forall t, Criteria.type c = Some t -> t <> "" -> eq_nocase (type p) t)).
  { destruct (Criteria.type c) as [t|].
    - rewrite orb_true_iff, negb_true_iff, truthy_false, String.eqb_eq,
        <- eq_nocase_spec.
      split.
      + intros [H | H] t' [= <-] Hne; [contradiction | exact H].
      + intros H. destruct t as [|a t]; [now left | right].
        apply H; [reflexivity | discriminate].
    - split; [intros _ t; discriminate | reflexivity]. }
  assert (Hloc :
    match Criteria.location c with
    | Some t => includes (toLowerCase (location p)) (toLowerCase t)
    | None => true
    end = true
    <-> (forall t, Criteria.location c = Some t ->
                   SubstringNoCase t (location p))).
  { destruct (Criteria.location c) as [t|].
    - rewrite includes_nocase_spec. split; [intros H t' [= <-]; exact H | auto].
    - split; [intros _ t; discriminate | reflexivity]. }
  rewrite Hty, Hloc. tauto.
Qed.

(* ----------------------------------------------------------------- *)
(** *** Every integer has a text that [parseInt] reads back *)

Lemma trim_start_uint (d : uint) :
  trim_start (NilEmpty.string_of_uint d) = NilEmpty.string_of_uint d.
Proof. destruct d; reflexivity. Qed.

Lemma read_sign_uint (d : uint) :
  read_sign (NilEmpty.string_of_uint d) = (1, NilEmpty.string_of_uint d).
Proof. destruct d; reflexivity. Qed.

Lemma read_radix_uint (d : uint) :
  read_radix (NilEmpty.string_of_uint d) = (10, NilEmpty.string_of_uint d).
Proof. destruct d as [|d|d|d|d|d|d|d|d|d|d]; try reflexivity. destruct d; reflexivity. Qed.

Lemma radix_digits_uint_nonempty (d : uint) :
  d <> Nil -> radix_digits 10 (NilEmpty.string_of_uint d) <> [].
Proof. destruct d; [contradiction | ..]; intros _; discriminate. Qed.

Lemma radix_digits_step (radix : Z) (c : ascii) (r : string) (v : Z) :
  digit_value c = Some v -> (v <? radix) = true ->
  radix_digits radix (String c r) = v :: radix_digits radix r.
Proof. intros Hc Hv. cbn [radix_digits]. now rewrite Hc, Hv. Qed.

Lemma radix_digits_uint_value (d : uint) (acc : nat) :
  fold_left (fun a x => a * 10 + x)
            (radix_digits 10 (NilEmpty.string_of_uint d)) (Z.of_nat acc)
  = Z.of_nat (Nat.of_uint_acc d acc).
Proof.
  revert acc. induction d; intros acc; [reflexivity | ..];
    cbn [NilEmpty.string_of_uint Nat.of_uint_acc];
    (erewrite radix_digits_step; [ | reflexivity | reflexivity]);
    cbn [fold_left]; rewrite <- IHd; f_equal;
    rewrite Nat.tail_mul_spec;
    (match goal with
     | |- context [Z.of_nat (nat_of_ascii ?c)] =>
         let v := eval vm_compute in (Z.of_nat (nat_of_ascii c)) in
         change (Z.of_nat (nat_of_ascii c)) with v
     end); lia.
Qed.

Lemma to_uint_not_nil (n : nat) : Nat.to_uint n <> Nil.
Proof.
  rewrite <- (DecimalNat.Unsigned.of_to n) at 1.
  rewrite DecimalNat.Unsigned.to_of. unfold unorm.
  destruct (nzhead (Nat.to_uint n)); discriminate.
Qed.

Lemma parseInt_minus (s : string) :
  parseInt (String "-" s)
  = let '(radix, s2) := read_radix s in
    match radix_digits radix s2 with
    | [] => NaN
    | ds => Some (-1 * digits_value radix ds)
    end.
Proof. reflexivity. Qed.

Lemma parseInt_uint (n : nat) (s : string) :
  s = NilEmpty.string_of_uint (Nat.to_uint n) ->
  parseInt s = Some (Z.of_nat n)
  /\ parseInt (String "-" s) = Some (- Z.of_nat n).
Proof.
  intros ->.
  assert (Hv : digits_value 10
                 (radix_digits 10 (NilEmpty.string_of_uint (Nat.to_uint n)))
               = Z.of_nat n).
  { unfold digits_value.
    exact (eq_trans (radix_digits_uint_value (Nat.to_uint n) 0)
                    (f_equal Z.of_nat (DecimalNat.Unsigned.of_to n))). }
  pose proof (radix_digits_uint_nonempty _ (to_uint_not_nil n)) as Hne.
  split.
  - unfold parseInt.
    rewrite trim_start_uint, read_sign_uint, read_radix_uint.
    destruct (radix_digits 10 _) as [|x ds]; [contradiction|].
    rewrite Hv. now rewrite Z.mul_1_l.
  - rewrite parseInt_minus, read_radix_uint.
    destruct (radix_digits 10 _) as [|x ds]; [contradiction|].
    rewrite Hv. f_equal; lia.
Qed.

Lemma parseInt_decimal (z : Z) : parseInt (decimal z) = Some z.
Proof.
  unfold decimal.
  destruct (parseInt_uint (Z.to_nat (Z.abs z)) _ eq_refl) as [Hpos Hneg].
  destruct (Z.ltb_spec z 0).
  - rewrite Hneg. f_equal. lia.
  - rewrite Hpos. f_equal. lia.
Qed.

Lemma reads_form_of (c : Criteria.t) : reads (form_of c) c.
Proof.
  unfold reads, form_of; cbn.
  repeat split;
    match goal with
    | |- text_reads _ ?o => destruct o; reflexivity
    | |- number_reads _ ?o => destruct o; [apply parseInt_decimal | reflexivity]
    end.
Qed.

(** What [parseInt] reads in some texts a control can hold. *)
Example parseInt_samples :
  parseInt "150000" = Some 150000
  /\ parseInt "0" = Some 0
  /\ parseInt "  -12abc" = Some (-12)
  /\ parseInt "1e5" = Some 1
  /\ parseInt "0x1F" = Some 31
  /\ parseInt "abc" = NaN
  /\ parseInt ".5" = NaN
  /\ parseInt "-" = NaN.
Proof. repeat split. Qed.

Lemma string_of_uint_ascii (d : uint) :
  isAsciiText (NilEmpty.string_of_uint d) = true.
Proof. induction d; cbn; auto. Qed.

Lemma decimal_ascii (z : Z) : isAsciiText (decimal z) = true.
Proof.
  unfold decimal. destruct (z <? 0); [cbn|]; apply string_of_uint_ascii.
Qed.

Lemma plainForm_form_of (c : Criteria.t) :
  plainCriteria c = true -> plainForm (form_of c) = true.
Proof.
  unfold plainCriteria, plainForm, form_of. cbn.
  rewrite !andb_true_iff. intros [[[[Ht _] _] _] Hl].
  repeat split;
    match goal with
    | |- isAsciiText (number_text_of ?o) = true =>
        destruct o; [apply decimal_ascii | reflexivity]
    | |- isAsciiText (text_of ?o) = true => destruct o; assumption
    end.
Qed.

(** C1.  For every catalog and all criteria [c], of ASCII texts and
    safe integers, the search sets the results to the catalog filtered
    by [satisfies c], in catalog order: on every ASCII form that holds
    [c] (empty text for an absent criterion, a text [parseInt] reads as
    the integer for a bound), and so on the form [form_of c], which
    writes the bounds in decimal.  [satisfies c] holds exactly when the
    type is the one asked for up to the case of its letters, the price
    is within the two inclusive bounds, the bedroom count is at least the
    one asked for and the location contains the text asked for up to the
    case of its letters, each for the criteria that are present.  On the
    empty form the results are the whole catalog. *)
Theorem handleSearch_filters_catalog (s : AppState) (c : Criteria.t) :
  plainCatalog (properties s) = true ->
  plainCriteria c = true ->
  (plainForm (filters s) = true -> reads (filters s) c ->
   filteredProperties (run handleSearch s)
   = filter (satisfies c) (properties s))
  /\ (plainForm (form_of c) = true
      /\ filteredProperties (run handleSearch (setFilters (form_of c) s))
         = filter (satisfies c) (properties s))
  /\ (forall p, satisfies c p = true <-> Satisfies c p)
  /\ filteredProperties (run handleSearch (setFilters Filters.empty s))
     = properties s.
Proof.
  intros _ Hc.
  assert (E : forall t, reads (filters t) c ->
              filteredProperties (run handleSearch t)
              = filter (satisfies c) (properties t)).
  { intros t H. cbn. rewrite searchResults_passes. apply filter_ext.
    intros p. now apply passes_reads. }
  split; [intros _; apply E|].
  split; [split; [now apply plainForm_form_of|]|].
  { apply (E (setFilters (form_of c) s)), reads_form_of. }
  split; [intros p; apply satisfies_spec|].
  reflexivity.
Qed.

(** On the sample catalog, the form with [FLAT] as type, [150000] as
    minimum price and [ORPINGTON] as location keeps the one flat, whose
    type and location are written with other capitals. *)
Lemma handleSearch_filters_catalog_witness :
  plainCatalog (properties Sample.capitals150000) = true
  /\ plainCriteria Sample.criteriaCapitals = true
  /\ plainForm (filters Sample.capitals150000) = true
  /\ reads (filters Sample.capitals150000) Sample.criteriaCapitals
  /\ filteredProperties (run handleSearch Sample.capitals150000) = [Sample.flat]
  /\ Satisfies Sample.criteriaCapitals Sample.flat
  /\ ~ Satisfies Sample.criteriaCapitals Sample.semi.
Proof.
  assert (H : reads (filters Sample.capitals150000) Sample.criteriaCapitals)
    by (repeat split; reflexivity).
  destruct (handleSearch_filters_catalog
              Sample.capitals150000 Sample.criteriaCapitals eq_refl eq_refl)
    as (E & _ & S & _).
  split; [reflexivity|]. split; [reflexivity|]. split; [reflexivity|].
  split; [exact H|].
  split; [rewrite (E eq_refl H); reflexivity|].
  split; [now apply S|].
  intros Hs. apply S in Hs. discriminate Hs.
Defined.

(** C2, as stated, fails: with the text [abc] as minimum price the
    search keeps nothing, while with the control empty it keeps the
    whole catalog. *)
Lemma non_numeric_minPrice_is_not_absent :
  unreadable (Filters.minPrice (filters Sample.minPriceAbc))
  /\ filteredProperties (run handleSearch Sample.minPriceAbc) = []
  /\ filteredProperties
       (run handleSearch (dispatch (Change FMinPrice "") Sample.minPriceAbc))
     = Sample.catalog
  /\ filteredProperties (run handleSearch Sample.minPriceAbc)
     <> filteredProperties
          (run handleSearch (dispatch (Change FMinPrice "") Sample.minPriceAbc)).
Proof.
  split; [repeat split|].
  split; [reflexivity|]. split; [reflexivity|].
  discriminate.
Qed.

(** C2, amended.  When the minimum price, the maximum price or the
    bedroom count is an ASCII text that is not empty and in which
    [parseInt] finds no number, the search ends normally (the model is a
    total function) and keeps no entry: every comparison with [NaN] is
    false. *)
Theorem handleSearch_unreadable_number (s : AppState) :
  unreadable (Filters.minPrice (filters s))
  \/ unreadable (Filters.maxPrice (filters s))
  \/ unreadable (Filters.bedrooms (filters s)) ->
  filteredProperties (run handleSearch s) = [].
Proof.
  intros H. cbn. rewrite searchResults_passes. apply filter_false.
  intros p. unfold passes.
  destruct H as [(_ & Ht & Hn) | [(_ & Ht & Hn) | (_ & Ht & Hn)]];
    rewrite Ht, Hn; cbn;
    now rewrite ?andb_false_r.
Qed.

Lemma handleSearch_unreadable_number_witness :
  unreadable (Filters.minPrice (filters Sample.minPriceAbc))
  /\ filteredProperties (run handleSearch Sample.minPriceAbc) = [].
Proof.
  assert (H : unreadable (Filters.minPrice (filters Sample.minPriceAbc)))
    by (repeat split).
  split; [exact H|].
  apply (handleSearch_unreadable_number Sample.minPriceAbc).
  left. exact H.
Defined.

(* ================================================================= *)
(** ** The favourites list *)

Lemma existsb_has_id (i : JsId) (l : list Property) :
  existsb (has_id i) l = true <-> In i (List.map id l).
Proof.
  rewrite existsb_exists, in_map_iff. unfold has_id.
  split; intros [f [H1 H2]]; exists f.
  - apply id_eqb_eq in H2. now split.
  - split; [exact H2 | now apply id_eqb_eq].
Qed.

Lemma find_has_id_none (i : JsId) (l : list Property) :
  find (has_id i) l = None <-> ~ In i (List.map id l).
Proof.
  rewrite <- existsb_has_id.
  induction l as [|f l IH]; simpl.
  - split; [discriminate | reflexivity].
  - destruct (has_id i f); simpl; [|exact IH].
    split; [discriminate | intros H; now elim H].
Qed.

Lemma find_has_id_existsb (i : JsId) (l : list Property) :
  find (has_id i) l = None <-> existsb (has_id i) l = false.
Proof.
  rewrite find_has_id_none, <- existsb_has_id.
  destruct (existsb (has_id i) l); split; congruence.
Qed.

Lemma distinct_ids_add (l : list Property) (p : Property) :
  distinct_ids l -> find (has_id (id p)) l = None -> distinct_ids (l ++ [p]).
Proof.
  unfold distinct_ids. intros Hl Hp. apply find_has_id_none in Hp.
  rewrite map_app. simpl.
  apply NoDup_app; [exact Hl | repeat constructor; intros [] |].
  intros a Ha [<- | []]. contradiction.
Qed.

Lemma distinct_ids_filter (g : Property -> bool) (l : list Property) :
  distinct_ids l -> distinct_ids (filter g l).
Proof.
  unfold distinct_ids. induction l as [|f l IH]; simpl; intros H; [exact H|].
  inversion H as [|x xs Hin Hnd]; subst.
  destruct (g f); simpl; [|now apply IH].
  constructor; [|now apply IH].
  rewrite in_map_iff. intros [f' [E Hf']]. apply Hin.
  apply filter_In in Hf'. rewrite in_map_iff. exists f'. tauto.
Qed.

Lemma addToFavourites_distinct (p : Property) (cur pend : AppState) :
  distinct_ids (favourites cur) -> distinct_ids (favourites pend) ->
  distinct_ids (favourites (addToFavourites p cur pend)).
Proof.
  intros Hc Hp. unfold addToFavourites.
  destruct (find (has_id (id p)) (favourites cur)) eqn:E; [exact Hp|].
  cbn. now apply distinct_ids_add.
Qed.

Lemma removeFromFavourites_distinct (i : JsId) (cur pend : AppState) :
  distinct_ids (favourites cur) ->
  distinct_ids (favourites (removeFromFavourites i cur pend)).
Proof. intros Hc. cbn. now apply distinct_ids_filter. Qed.

Lemma handleDropOnFavourites_distinct (cur pend : AppState) :
  distinct_ids (favourites cur) -> distinct_ids (favourites pend) ->
  distinct_ids (favourites (handleDropOnFavourites cur pend)).
Proof.
  intros Hc Hp. unfold handleDropOnFavourites. cbn.
  destruct (draggedProperty cur) as [d|]; [|exact Hp].
  destruct (find (has_id (id d)) (favourites cur)) eqn:E; [exact Hp|].
  cbn. now apply distinct_ids_add.
Qed.

Lemma handleDropRemove_distinct (cur pend : AppState) :
  distinct_ids (favourites cur) -> distinct_ids (favourites pend) ->
  distinct_ids (favourites (handleDropRemove cur pend)).
Proof.
  intros Hc Hp. unfold handleDropRemove. cbn.
  destruct (draggedProperty cur) as [d|]; [|exact Hp].
  cbn. now apply distinct_ids_filter.
Qed.

(** Every event keeps the identifiers of the favourites distinct. *)
Lemma dispatch_distinct (e : Event) (s : AppState) :
  distinct_ids (favourites s) -> distinct_ids (favourites (dispatch e s)).
Proof.
  intros H. destruct e; unfold dispatch; cbn [handlers fold_left]; try exact H.
  - (* ClickHeart *)
    unfold onToggleFavourite.
    destruct (existsb _ _);
      [now apply removeFromFavourites_distinct | now apply addToFavourites_distinct].
  - (* ClickRemove *) now apply removeFromFavourites_distinct.
  - (* ClickClearAll *) destruct confirmed; [constructor | exact H].
  - (* DropOnFavourites *) now apply handleDropOnFavourites_distinct.
  - (* DropOnRemoveZone *)
    apply handleDropOnFavourites_distinct; [exact H|].
    now apply handleDropRemove_distinct.
Qed.

(** A page load takes the stored list as it is. *)
Lemma mount_takes_snapshot (l : list Property) :
  favourites (app (mount (Some l))) = l /\ storage (mount (Some l)) = Some l.
Proof. split; reflexivity. Qed.

(** After a page load and after every event, the stored entry is the
    rendered list, and its identifiers are distinct. *)
Lemma reachable_invariant (w : World) :
  reachable w ->
  storage w = Some (favourites (app w)) /\ distinct_ids (favourites (app w)).
Proof.
  induction 1 as [|w e Hw [Hst Hd]].
  - split; [reflexivity | constructor].
  - destruct e as [e|]; cbn.
    + split; [reflexivity | now apply dispatch_distinct].
    + rewrite Hst. cbn. split; [reflexivity | exact Hd].
Qed.

(** C4.  In every state reached from a first visit, through events and
    page reloads, no two favourites carry the same identifier; and from
    any state with that property every event keeps it: the heart click
    (toggle, through [addToFavourites] or [removeFromFavourites]), the
    drop on the favourites card, the drop on the remove zone (which
    fires both drop handlers), the remove button and the clear
    button. *)
Theorem favourites_have_distinct_ids (w : World) (s : AppState) (e : Event)
    (p : Property) :
  (reachable w -> distinct_ids (favourites (app w)))
  /\ (distinct_ids (favourites s) ->
      distinct_ids (favourites (dispatch e s))
      /\ distinct_ids (favourites (run (addToFavourites p) s))).
Proof.
  split.
  - intros H. now apply reachable_invariant.
  - intros H. split; [now apply dispatch_distinct|].
    now apply addToFavourites_distinct.
Qed.

Lemma favourites_have_distinct_ids_witness :
  reachable Sample.afterTwoEvents
  /\ distinct_ids (favourites Sample.dragging)
  /\ distinct_ids (favourites (app Sample.afterTwoEvents))
  /\ distinct_ids (favourites (dispatch DropOnRemoveZone Sample.dragging)).
Proof.
  assert (Hr : reachable Sample.afterTwoEvents)
    by (repeat apply reach_step; apply reach_first).
  assert (Hd : distinct_ids (favourites Sample.dragging))
    by (repeat constructor; simpl; tauto).
  destruct (favourites_have_distinct_ids
              Sample.afterTwoEvents Sample.dragging DropOnRemoveZone Sample.semi)
    as [H1 H2].
  split; [exact Hr|]. split; [exact Hd|].
  split; [exact (H1 Hr) | exact (proj1 (H2 Hd))].
Defined.

Lemma isFavourite_filter_out (i : JsId) (l : list Property) :
  isFavourite (filter (fun f => negb (has_id i f)) l) i = false.
Proof.
  unfold isFavourite. induction l as [|f l IH]; simpl; [reflexivity|].
  destruct (has_id i f) eqn:E; simpl; [exact IH | now rewrite E].
Qed.

Lemma isFavourite_add (i : JsId) (l : list Property) (p : Property) :
  id p = i -> isFavourite (l ++ [p]) i = true.
Proof.
  intros <-. unfold isFavourite. rewrite existsb_app. simpl.
  unfold has_id at 2. now rewrite id_eqb_refl, orb_true_r.
Qed.

(** A heart click flips the membership of the identifier. *)
Lemma onToggleFavourite_flips (p : Property) (s : AppState) :
  isFavourite (favourites (run (onToggleFavourite p) s)) (id p)
  = negb (isFavourite (favourites s) (id p)).
Proof.
  unfold run, onToggleFavourite, isFavourite.
  destruct (existsb (has_id (id p)) (favourites s)) eqn:E.
  - cbn. apply isFavourite_filter_out.
  - unfold addToFavourites.
    rewrite (proj2 (find_has_id_existsb _ _) E). cbn.
    now apply isFavourite_add.
Qed.

(** C6.  A second [addToFavourites] with the same identifier, fired
    from the render that follows the first, changes no state cell, and
    an [addToFavourites] of an identifier that is already a favourite
    changes none either.  Two calls for the same entry from one render
    leave what one call leaves. *)
Theorem addToFavourites_idempotent (s : AppState) (p q : Property) :
  id q = id p ->
  run (addToFavourites q) (run (addToFavourites p) s)
  = run (addToFavourites p) s
  /\ (isFavourite (favourites s) (id p) = true ->
      run (addToFavourites p) s = s)
  /\ addToFavourites p s (addToFavourites p s s) = run (addToFavourites p) s.
Proof.
  intros Hq.
  assert (Hsame : addToFavourites p s (addToFavourites p s s)
                  = run (addToFavourites p) s).
  { unfold run, addToFavourites.
    destruct (find (has_id (id p)) (favourites s)); reflexivity. }
  cut ((run (addToFavourites q) (run (addToFavourites p) s)
        = run (addToFavourites p) s)
       /\ (isFavourite (favourites s) (id p) = true ->
           run (addToFavourites p) s = s)); [tauto|].
  clear Hsame.
  assert (Hpresent : forall (x : Property) (t : AppState),
             isFavourite (favourites t) (id x) = true ->
             run (addToFavourites x) t = t).
  { intros x t Hx. unfold run, addToFavourites.
    destruct (find (has_id (id x)) (favourites t)) eqn:E; [reflexivity|].
    apply find_has_id_existsb in E. unfold isFavourite in Hx. congruence. }
  split; [|apply Hpresent].
  apply Hpresent. rewrite Hq.
  unfold run, addToFavourites.
  destruct (find (has_id (id p)) (favourites s)) eqn:E.
  - destruct (existsb (has_id (id p)) (favourites s)) eqn:Ex; [exact Ex|].
    apply find_has_id_existsb in Ex. congruence.
  - cbn. now apply isFavourite_add.
Qed.

Lemma addToFavourites_idempotent_witness :
  id Sample.flat = id Sample.flat
  /\ run (addToFavourites Sample.flat) (run (addToFavourites Sample.flat) Sample.loaded)
     = run (addToFavourites Sample.flat) Sample.loaded
  /\ favourites (run (addToFavourites Sample.flat) Sample.loaded) = [Sample.flat].
Proof.
  split; [reflexivity|].
  split; [|reflexivity].
  apply (addToFavourites_idempotent Sample.loaded Sample.flat Sample.flat).
  reflexivity.
Defined.

(** C7.  Two heart clicks for the same identifier, one render after the
    other, leave that identifier a favourite exactly when it was one;
    each click alone flips it. *)
Theorem onToggleFavourite_twice (s : AppState) (p q : Property) :
  id q = id p ->
  isFavourite
    (favourites (run (onToggleFavourite q) (run (onToggleFavourite p) s)))
    (id p)
  = isFavourite (favourites s) (id p)
  /\ isFavourite (favourites (run (onToggleFavourite p) s)) (id p)
     = negb (isFavourite (favourites s) (id p)).
Proof.
  intros Hq. split; [|apply onToggleFavourite_flips].
  rewrite <- Hq at 1. rewrite onToggleFavourite_flips, Hq.
  rewrite onToggleFavourite_flips. apply negb_involutive.
Qed.

Lemma onToggleFavourite_twice_witness :
  id Sample.villa = id Sample.villa
  /\ isFavourite
       (favourites (run (onToggleFavourite Sample.villa)
                        (run (onToggleFavourite Sample.villa) Sample.dragging)))
       (id Sample.villa)
     = isFavourite (favourites Sample.dragging) (id Sample.villa).
Proof.
  split; [reflexivity|].
  apply (onToggleFavourite_twice Sample.dragging Sample.villa Sample.villa).
  reflexivity.
Defined.

(** C9.  The clear button with the confirmation declined changes no
    state cell; with the confirmation given it empties the favourites,
    touches no other cell, and the stored entry becomes the empty
    list. *)
Theorem clearFavourites_confirmation (w : World) (s : AppState) :
  dispatch (ClickClearAll false) s = s
  /\ favourites (dispatch (ClickClearAll true) s) = []
  /\ dispatch (ClickClearAll true) s = setFavourites [] s
  /\ app (step w (Ui (ClickClearAll false))) = app w
  /\ storage (step w (Ui (ClickClearAll true))) = Some [].
Proof.
  split; [reflexivity|]. split; [reflexivity|].
  split; [now destruct s|]. split; reflexivity.
Qed.

Lemma Erased_filter (i : JsId) (l : list Property) :
  Erased i l (filter (fun f => negb (has_id i f)) l).
Proof.
  induction l as [|f l IH]; simpl; [constructor|].
  unfold has_id at 1. destruct (id_eqb (id f) i) eqn:E; simpl.
  - apply Erased_drop; [now apply id_eqb_eq | exact IH].
  - apply Erased_keep; [now apply id_eqb_neq | exact IH].
Qed.

(** C10.  Whatever the favourites, duplicates included, the remove
    button leaves the list with every entry of the identifier left out
    and every other entry kept, in the same order; the identifier is no
    favourite afterwards, and an entry is in the new list exactly when it
    was in the old one under another identifier. *)
Theorem removeFromFavourites_erases (s : AppState) (i : JsId) :
  Erased i (favourites s) (favourites (run (removeFromFavourites i) s))
  /\ isFavourite (favourites (run (removeFromFavourites i) s)) i = false
  /\ (forall f, In f (favourites (run (removeFromFavourites i) s))
                <-> In f (favourites s) /\ id f <> i).
Proof.
  cbn. split; [apply Erased_filter|]. split; [apply isFavourite_filter_out|].
  intros f. rewrite filter_In, negb_true_iff. unfold has_id.
  now rewrite id_eqb_neq.
Qed.

(* ================================================================= *)
(** ** Drag and drop *)

(** C5, as stated, fails: a drag of [semi] released outside the two
    drop regions leaves [semi] recorded as dragged. *)
Lemma release_keeps_dragged_reference :
  draggedProperty Sample.dragging = Some Sample.semi
  /\ draggedProperty (dispatch DragEnd Sample.dragging) = Some Sample.semi
  /\ draggedProperty (dispatch DragEnd Sample.dragging) <> None.
Proof. split; [reflexivity|]. split; [reflexivity | discriminate]. Qed.

(** A drop on the remove zone of an entry that is no favourite: the
    [onDrop] of the card runs after that of the zone, on the same render,
    and its request to append the entry is the last one. *)
Example drop_on_remove_zone_of_non_favourite :
  favourites Sample.dragging = [Sample.flat]
  /\ favourites (dispatch DropOnRemoveZone Sample.dragging)
     = [Sample.flat; Sample.semi]
  /\ favourites
       (dispatch DropOnRemoveZone (dispatch (DragStart Sample.flat) Sample.dragging))
     = [].
Proof. repeat split. Qed.

(** C5, amended.  A drag released outside the two drop regions fires
    no handler: every state cell is unchanged, the favourites and the
    dragged reference included.  The reference is cleared by a drop on
    the favourites card or on the remove zone, replaced by the start of
    a drag, and left as it is by every other event. *)
Theorem release_without_target_changes_nothing (s : AppState) (e : Event) :
  dispatch DragEnd s = s
  /\ draggedProperty (dispatch e s)
     = match e with
       | DropOnFavourites | DropOnRemoveZone => None
       | DragStart property => Some property
       | _ => draggedProperty s
       end.
Proof.
  split; [reflexivity|].
  destruct e; try reflexivity.
  - unfold dispatch; cbn [handlers fold_left]. unfold onToggleFavourite.
    destruct (existsb _ _); [reflexivity|].
    unfold addToFavourites. now destruct (find _ _).
  - now destruct confirmed.
Qed.

(* ================================================================= *)
(** ** The image gallery *)

(** An entry with no [images] field gets the default image, and its
    single image is shown before and after a press. *)
Lemma detail_missing_gallery_falls_back (p : Property) :
  images p = None ->
  detailImages p = [default_image]
  /\ galleryImage p initialDetail = Some default_image
  /\ nextImage p initialDetail = initialDetail
  /\ prevImage p initialDetail = initialDetail.
Proof.
  intros H. unfold galleryImage, nextImage, prevImage, count, detailImages.
  rewrite H. repeat split.
Qed.

(** C3, on the code.  For an entry whose [images] is an empty array,
    the detail page keeps the empty array: there is no image at any
    index, and a press on next or previous would set the index to
    [NaN].  The card of the same entry does show the default image. *)
Theorem detail_empty_gallery_has_no_fallback
    (i : JsId) (t : string) (pr b : Z) (l : string) (d : DetailState) :
  let p := mkProperty i t pr b l (Some []) in
  detailImages p = []
  /\ galleryImage p d = None
  /\ currentImageIndex (nextImage p initialDetail) = NaN
  /\ currentImageIndex (prevImage p initialDetail) = NaN
  /\ controlsShown p = false
  /\ cardImageUrl p = default_image.
Proof.
  cbn zeta. split; [reflexivity|]. split; [|repeat split].
  unfold galleryImage. destruct (currentImageIndex d) as [k|]; [|reflexivity].
  destruct (k <? 0); [reflexivity|].
  cbn. now destruct (Z.to_nat k).
Qed.

Lemma nextImage_index (p : Property) (d : DetailState) (i : Z) :
  currentImageIndex d = Some i -> 0 <= i < count p ->
  nextImage p d = mkDetail (Some ((i + 1) mod count p)) (activeTab d).
Proof.
  intros Hd Hi. unfold nextImage, js_rem. rewrite Hd.
  destruct (Z.eqb_spec (count p) 0) as [E|E]; [lia|].
  now rewrite Z.rem_mod_nonneg by lia.
Qed.

Lemma pressNext_index (k : nat) (p : Property) (d : DetailState) (i : Z) :
  currentImageIndex d = Some i -> 0 <= i < count p ->
  pressNext k p d
  = mkDetail (Some ((i + Z.of_nat k) mod count p)) (activeTab d).
Proof.
  revert d i. induction k as [|k IH]; intros d i Hd Hi.
  - cbn [pressNext Z.of_nat]. rewrite Z.add_0_r, Z.mod_small by lia.
    destruct d; cbn in *; congruence.
  - cbn [pressNext]. rewrite (nextImage_index p d i Hd Hi).
    rewrite (IH (mkDetail (Some ((i + 1) mod count p)) (activeTab d))
                ((i + 1) mod count p) eq_refl)
      by (apply Z.mod_pos_bound; lia).
    cbn [activeTab]. rewrite Zplus_mod_idemp_l.
    do 2 f_equal. f_equal. lia.
Qed.

(** C8.  With at least one image and an index within the gallery, as
    many presses on next as there are images bring the index back, and
    so does a press on previous after a press on next. *)
Theorem image_navigation_cyclic (p : Property) (d : DetailState) (i : Z) :
  1 <= count p ->
  currentImageIndex d = Some i ->
  0 <= i < count p ->
  pressNext (Z.to_nat (count p)) p d = d
  /\ prevImage p (nextImage p d) = d.
Proof.
  intros Hn Hd Hi. split.
  - rewrite (pressNext_index _ p d i Hd Hi), Z2Nat.id by lia.
    rewrite <- (Z.mul_1_l (count p)) at 1.
    rewrite Z_mod_plus_full, Z.mod_small by lia.
    destruct d; cbn in *; congruence.
  - rewrite (nextImage_index p d i Hd Hi).
    unfold prevImage, js_rem. cbn [currentImageIndex activeTab].
    destruct (Z.eqb_spec (count p) 0) as [E|E]; [lia|].
    assert (Hj : 0 <= (i + 1) mod count p < count p)
      by (apply Z.mod_pos_bound; lia).
    rewrite Z.rem_mod_nonneg by lia.
    replace (((i + 1) mod count p - 1 + count p) mod count p) with i.
    + destruct d; cbn in *; congruence.
    + destruct (Z.eq_dec (i + 1) (count p)) as [E1|E1].
      * rewrite E1, Z_mod_same_full.
        rewrite Z.mod_small by lia. lia.
      * rewrite (Z.mod_small (i + 1)) by lia.
        replace (i + 1 - 1 + count p) with (i + 1 * count p) by lia.
        rewrite Z_mod_plus_full, Z.mod_small by lia. reflexivity.
Qed.

Lemma image_navigation_cyclic_witness :
  1 <= count Sample.semi
  /\ currentImageIndex Sample.onSecondImage = Some 1
  /\ 0 <= 1 < count Sample.semi
  /\ pressNext 3 Sample.semi Sample.onSecondImage = Sample.onSecondImage
  /\ prevImage Sample.semi (nextImage Sample.semi Sample.onSecondImage)
     = Sample.onSecondImage.
Proof.
  assert (H1 : 1 <= count Sample.semi) by (vm_compute; discriminate).
  assert (H2 : currentImageIndex Sample.onSecondImage = Some 1) by reflexivity.
  assert (H3 : 0 <= 1 < count Sample.semi)
    by (split; vm_compute; [discriminate | reflexivity]).
  split; [exact H1|]. split; [exact H2|]. split; [exact H3|].
  exact (image_navigation_cyclic Sample.semi Sample.onSecondImage 1 H1 H2 H3).
Defined.

(* ================================================================= *)
(** ** More on the search *)

Lemma dispatch_properties (e : Event) (s : AppState) :
  (forall data, e <> CatalogLoaded data) ->
  properties (dispatch e s) = properties s.
Proof.
  intros H. destruct e; try reflexivity.
  - now elim (H data).
  - unfold dispatch; cbn [handlers fold_left]. unfold onToggleFavourite.
    destruct (existsb _ _); [reflexivity|].
    unfold addToFavourites. now destruct (find _ _).
  - now destruct confirmed.
  - unfold dispatch; cbn [handlers fold_left].
    unfold handleDropOnFavourites.
    destruct (draggedProperty s); [|reflexivity]. now destruct (find _ _).
  - unfold dispatch; cbn [handlers fold_left].
    unfold handleDropOnFavourites, handleDropRemove.
    destruct (draggedProperty s); [|reflexivity]. now destruct (find _ _).
Qed.

Lemma dispatchAll_properties (es : list Event) (s : AppState) :
  noCatalogLoaded es -> properties (dispatchAll es s) = properties s.
Proof.
  revert s. induction es as [|e es IH]; intros s H; [reflexivity|].
  cbn [dispatchAll fold_left]. fold (dispatchAll es (dispatch e s)).
  rewrite IH.
  - apply dispatch_properties. intros data ->. apply (H data). now left.
  - intros data Hin. apply (H data). now right.
Qed.

(** X1.  The search does not build on the results of the search before: after
    any events but the arrival of a catalog, a submit leaves the catalog
    filtered by the tests of the form as it then is; a second submit in
    a row changes nothing. *)
Theorem search_forgets_earlier_results (es : list Event) (s : AppState) :
  noCatalogLoaded es ->
  filteredProperties (dispatch Submit (dispatchAll es s))
  = filter (passes (filters (dispatchAll es s))) (properties s)
  /\ dispatch Submit (dispatch Submit (dispatchAll es s))
     = dispatch Submit (dispatchAll es s).
Proof.
  intros H. split; [|reflexivity].
  unfold dispatch at 1; cbn [handlers fold_left]. unfold handleSearch. cbn.
  now rewrite searchResults_passes, dispatchAll_properties.
Qed.

Lemma search_forgets_earlier_results_witness :
  noCatalogLoaded Scenario.browsing
  /\ filteredProperties (dispatchAll Scenario.browsing Sample.loaded) = [Sample.flat]
  /\ filteredProperties (dispatch Submit (dispatchAll Scenario.browsing Sample.loaded))
     = [Sample.flat; Sample.villa].
Proof.
  assert (H : noCatalogLoaded Scenario.browsing).
  { intros data Hin. cbn in Hin.
    repeat (destruct Hin as [Hin | Hin]; [discriminate|]). exact Hin. }
  split; [exact H|]. split; [reflexivity|].
  rewrite (proj1 (search_forgets_earlier_results _ Sample.loaded H)).
  reflexivity.
Defined.

(** X2.  The results are always the catalog passed through some test: in
    every state reached from a first visit they are entries of the
    catalog, in catalog order, and carry distinct identifiers when the
    catalog does. *)
Theorem results_are_filtered_catalog (w : World) :
  reachable w ->
  (exists test, filteredProperties (app w) = filter test (properties (app w)))
  /\ incl (filteredProperties (app w)) (properties (app w))
  /\ (distinct_ids (properties (app w)) ->
      distinct_ids (filteredProperties (app w))).
Proof.
  intros H.
  assert (E : exists test,
             filteredProperties (app w) = filter test (properties (app w))).
  { induction H as [|w e Hw IH].
    - now exists (fun _ => true).
    - destruct e as [e|];
        [|cbn [step]; destruct (storage w); now exists (fun _ => true)].
      destruct IH as [g IH]. cbn [step saveEffect app].
      destruct e;
        try (exists g; unfold dispatch; cbn [handlers fold_left]; exact IH).
      + exists (fun _ => true). cbn. symmetry. now apply filter_true.
      + exists (passes (filters (app w))). cbn. apply searchResults_passes.
      + exists (fun _ => true). cbn. symmetry. now apply filter_true.
      + exists g. unfold dispatch; cbn [handlers fold_left].
        unfold onToggleFavourite. destruct (existsb _ _); [exact IH|].
        unfold addToFavourites. now destruct (find _ _).
      + exists g. now destruct confirmed.
      + exists g. unfold dispatch; cbn [handlers fold_left].
        unfold handleDropOnFavourites.
        destruct (draggedProperty (app w)); [|exact IH]. now destruct (find _ _).
      + exists g. unfold dispatch; cbn [handlers fold_left].
        unfold handleDropOnFavourites, handleDropRemove.
        destruct (draggedProperty (app w)); [|exact IH]. now destruct (find _ _). }
  split; [exact E|]. destruct E as [g E]. rewrite E. split.
  - intros p Hp. now apply filter_In in Hp.
  - apply distinct_ids_filter.
Qed.

Lemma results_are_filtered_catalog_witness :
  reachable Scenario.visited
  /\ incl (filteredProperties (app Scenario.visited))
          (properties (app Scenario.visited)).
Proof.
  assert (H : reachable Scenario.visited)
    by (repeat apply reach_step; apply reach_first).
  split; [exact H|].
  exact (proj1 (proj2 (results_are_filtered_catalog Scenario.visited H))).
Defined.

(** X3.  Reset empties the form and shows the whole catalog whatever was
    searched before, leaves the favourites alone, and a submit right
    after it changes nothing. *)
Theorem handleReset_restores_catalog (s : AppState) :
  filteredProperties (dispatch ClickReset (dispatch Submit s)) = properties s
  /\ filters (dispatch ClickReset (dispatch Submit s)) = Filters.empty
  /\ favourites (dispatch ClickReset (dispatch Submit s)) = favourites s
  /\ dispatch ClickReset (dispatch Submit s) = dispatch ClickReset s
  /\ dispatch Submit (dispatch ClickReset s) = dispatch ClickReset s.
Proof. repeat split. Qed.

Lemma passes_clear (fld : Field) (f : Filters.t) (p : Property) :
  passes f p = true -> passes (setField fld "" f) p = true.
Proof.
  unfold passes. rewrite !andb_true_iff.
  intros [[[[H1 H2] H3] H4] H5].
  destruct fld; cbn [setField Filters.type Filters.minPrice Filters.maxPrice
                       Filters.bedrooms Filters.location truthy negb orb];
    repeat split; assumption.
Qed.

(** X4.  A criterion only narrows: the results of a form are the results of
    the same form with one control emptied, passed through the tests of
    the form; so emptying a control never loses a result. *)
Theorem clearing_a_control_widens (l : list Property) (f : Filters.t)
    (fld : Field) :
  searchResults l f
  = filter (passes f) (searchResults l (setField fld "" f))
  /\ incl (searchResults l f) (searchResults l (setField fld "" f)).
Proof.
  assert (E : searchResults l f
              = filter (passes f) (searchResults l (setField fld "" f))).
  { rewrite !searchResults_passes, filter_filter. apply filter_ext_in.
    intros p _. destruct (passes f p) eqn:Hp.
    - now rewrite (passes_clear fld f p Hp).
    - now rewrite andb_false_r. }
  split; [exact E|].
  rewrite E. intros p Hp. now apply filter_In in Hp.
Qed.

(** X5.  When both price bounds are ASCII texts read as safe integers and
    the minimum is above the maximum, the search keeps nothing. *)
Theorem crossed_price_bounds_keep_nothing (s : AppState) (lo hi : Z) :
  isAsciiText (Filters.minPrice (filters s)) = true ->
  isAsciiText (Filters.maxPrice (filters s)) = true ->
  parseInt (Filters.minPrice (filters s)) = Some lo ->
  parseInt (Filters.maxPrice (filters s)) = Some hi ->
  isSafeInteger lo = true ->
  isSafeInteger hi = true ->
  hi < lo ->
  filteredProperties (dispatch Submit s) = [].
Proof.
  intros _ _ Hlo Hhi _ _ Hlt. cbn. rewrite searchResults_passes.
  apply filter_false.
  intros p. unfold passes.
  rewrite (parseInt_truthy _ _ Hlo), (parseInt_truthy _ _ Hhi), Hlo, Hhi.
  cbn [negb orb js_ge js_le].
  destruct (Z.leb_spec lo (price p)), (Z.leb_spec (price p) hi);
    try lia; now rewrite ?andb_false_r, ?andb_false_l.
Qed.

Lemma crossed_price_bounds_keep_nothing_witness :
  isAsciiText (Filters.minPrice (filters Scenario.crossedBounds)) = true
  /\ isAsciiText (Filters.maxPrice (filters Scenario.crossedBounds)) = true
  /\ parseInt (Filters.minPrice (filters Scenario.crossedBounds)) = Some 300000
  /\ parseInt (Filters.maxPrice (filters Scenario.crossedBounds)) = Some 200000
  /\ isSafeInteger 300000 = true
  /\ isSafeInteger 200000 = true
  /\ filteredProperties (dispatch Submit Scenario.crossedBounds) = [].
Proof.
  repeat (split; [reflexivity|]).
  apply (crossed_price_bounds_keep_nothing Scenario.crossedBounds 300000 200000);
    try reflexivity.
Defined.

Lemma truthy_toLowerCase (s : string) : truthy (toLowerCase s) = truthy s.
Proof. now destruct s. Qed.

(** X6.  The case of the letters typed as type or as location does not
    matter: two texts equal up to case give the same results. *)
Theorem search_ignores_case_of_text (l : list Property) (f : Filters.t)
    (t t' : string) :
  toLowerCase t = toLowerCase t' ->
  searchResults l (setField FType t f) = searchResults l (setField FType t' f)
  /\ searchResults l (setField FLocation t f)
     = searchResults l (setField FLocation t' f).
Proof.
  intros H.
  assert (Ht : truthy t = truthy t')
    by now rewrite <- (truthy_toLowerCase t), H, truthy_toLowerCase.
  rewrite !searchResults_passes.
  split; apply filter_ext; intros p; unfold passes;
    cbn [setField Filters.type Filters.minPrice Filters.maxPrice
           Filters.bedrooms Filters.location];
    now rewrite H, Ht.
Qed.

Lemma search_ignores_case_of_text_witness :
  toLowerCase "BUNGALOW" = toLowerCase "Bungalow"
  /\ searchResults Sample.catalog (setField FType "BUNGALOW" Filters.empty)
     = [Sample.villa].
Proof.
  split; [reflexivity|].
  rewrite (proj1 (search_ignores_case_of_text Sample.catalog Filters.empty
                    "BUNGALOW" "Bungalow" eq_refl)).
  reflexivity.
Defined.

(* ================================================================= *)
(** ** More on the favourites *)

Lemma filter_out_absent (i : JsId) (l : list Property) :
  existsb (has_id i) l = false -> filter (fun f => negb (has_id i f)) l = l.
Proof.
  induction l as [|f l IH]; simpl; [reflexivity|].
  destruct (has_id i f); simpl; [discriminate|].
  intros H. now rewrite IH.
Qed.

Lemma setFavourites_same (s : AppState) : setFavourites (favourites s) s = s.
Proof. now destruct s. Qed.

(** X7.  Removing an identifier that is no favourite changes no state
    cell. *)
Theorem removeFromFavourites_absent (s : AppState) (i : JsId) :
  isFavourite (favourites s) i = false ->
  run (removeFromFavourites i) s = s.
Proof.
  intros H. unfold run, removeFromFavourites.
  rewrite (filter_out_absent _ _ H). apply setFavourites_same.
Qed.

Lemma removeFromFavourites_absent_witness :
  isFavourite (favourites Scenario.twoFavourites) (id Sample.semi) = false
  /\ run (removeFromFavourites (id Sample.semi)) Scenario.twoFavourites
     = Scenario.twoFavourites.
Proof.
  split; [reflexivity|].
  now apply (removeFromFavourites_absent Scenario.twoFavourites (id Sample.semi)).
Defined.

Lemma filter_out_middle (p : Property) (l1 l2 : list Property) :
  ~ In (id p) (List.map id l1) -> ~ In (id p) (List.map id l2) ->
  filter (fun f => negb (has_id (id p) f)) (l1 ++ p :: l2) = l1 ++ l2.
Proof.
  intros H1 H2. rewrite filter_app. cbn [filter].
  unfold has_id at 2. rewrite id_eqb_refl. cbn [negb].
  rewrite !filter_out_absent; [reflexivity | |].
  - destruct (existsb (has_id (id p)) l2) eqn:E; [|reflexivity].
    apply existsb_has_id in E. contradiction.
  - destruct (existsb (has_id (id p)) l1) eqn:E; [|reflexivity].
    apply existsb_has_id in E. contradiction.
Qed.

Lemma onToggleFavourite_absent (s : AppState) (p : Property) :
  existsb (has_id (id p)) (favourites s) = false ->
  run (onToggleFavourite p) s = setFavourites (favourites s ++ [p]) s.
Proof.
  intros H. unfold run, onToggleFavourite, addToFavourites.
  now rewrite H, (proj2 (find_has_id_existsb _ _) H).
Qed.

Lemma onToggleFavourite_present (s : AppState) (p : Property) :
  existsb (has_id (id p)) (favourites s) = true ->
  run (onToggleFavourite p) s
  = setFavourites (filter (fun f => negb (has_id (id p) f)) (favourites s)) s.
Proof.
  intros H. unfold run, onToggleFavourite, removeFromFavourites.
  now rewrite H.
Qed.

(** X8.  Two heart clicks on an entry that was no favourite give back every
    state cell as it was.  On an entry that was one, with distinct
    identifiers in the list, they give back the same favourites in
    another order: the entry is now the last. *)
Theorem onToggleFavourite_twice_restores_list (s : AppState) (p : Property) :
  (isFavourite (favourites s) (id p) = false ->
   run (onToggleFavourite p) (run (onToggleFavourite p) s) = s)
  /\ (distinct_ids (favourites s) -> In p (favourites s) ->
      Permutation
        (favourites (run (onToggleFavourite p) (run (onToggleFavourite p) s)))
        (favourites s)
      /\ exists others,
          favourites (run (onToggleFavourite p) (run (onToggleFavourite p) s))
          = others ++ [p]).
Proof.
  split.
  - intros H. unfold isFavourite in H.
    rewrite (onToggleFavourite_absent s p H).
    rewrite onToggleFavourite_present
      by (cbn [favourites setFavourites]; now apply isFavourite_add).
    cbn [favourites setFavourites].
    rewrite filter_app. cbn [filter]. unfold has_id at 2.
    rewrite id_eqb_refl. cbn [negb].
    rewrite (filter_out_absent _ _ H), app_nil_r.
    now destruct s.
  - intros Hd Hin.
    destruct (in_split _ _ Hin) as (l1 & l2 & E).
    assert (Hsplit : ~ In (id p) (List.map id l1) /\ ~ In (id p) (List.map id l2)).
    { unfold distinct_ids in Hd. rewrite E, map_app in Hd. cbn [List.map] in Hd.
      apply NoDup_remove_2 in Hd. rewrite in_app_iff in Hd. tauto. }
    destruct Hsplit as [H1 H2].
    assert (Hp : existsb (has_id (id p)) (favourites s) = true).
    { apply existsb_has_id. now apply in_map. }
    rewrite (onToggleFavourite_present s p Hp).
    rewrite E, (filter_out_middle p l1 l2 H1 H2).
    assert (Ha : existsb (has_id (id p)) (l1 ++ l2) = false).
    { destruct (existsb (has_id (id p)) (l1 ++ l2)) eqn:Ex; [|reflexivity].
      apply existsb_has_id in Ex. rewrite map_app, in_app_iff in Ex. tauto. }
    rewrite onToggleFavourite_absent by exact Ha.
    cbn [favourites setFavourites].
    split; [|now exists (l1 ++ l2)].
    rewrite <- app_assoc. apply Permutation_app_head.
    symmetry. apply Permutation_cons_append.
Qed.

Lemma onToggleFavourite_twice_restores_list_witness :
  distinct_ids (favourites Scenario.twoFavourites)
  /\ In Sample.flat (favourites Scenario.twoFavourites)
  /\ Permutation
       (favourites (run (onToggleFavourite Sample.flat)
                        (run (onToggleFavourite Sample.flat) Scenario.twoFavourites)))
       (favourites Scenario.twoFavourites).
Proof.
  assert (Hd : distinct_ids (favourites Scenario.twoFavourites)).
  { repeat constructor; cbn; intuition discriminate. }
  assert (Hin : In Sample.flat (favourites Scenario.twoFavourites)) by now left.
  split; [exact Hd|]. split; [exact Hin|].
  exact (proj1 (proj2 (onToggleFavourite_twice_restores_list
                         Scenario.twoFavourites Sample.flat) Hd Hin)).
Defined.

(** X9.  A card dragged and dropped on the favourites card leaves what
    [addToFavourites] leaves for it, with no entry recorded as dragged.
    A drop while no entry is recorded as dragged changes no state cell,
    on the favourites card and on the remove zone alike. *)
Theorem drop_on_favourites_is_add (s : AppState) (p : Property) :
  dispatch DropOnFavourites (dispatch (DragStart p) s)
  = setDraggedProperty None (run (addToFavourites p) s)
  /\ (draggedProperty s = None ->
      dispatch DropOnFavourites s = s /\ dispatch DropOnRemoveZone s = s).
Proof.
  split.
  - unfold dispatch; cbn [handlers fold_left].
    unfold handleDropOnFavourites, handleDragStart, run, addToFavourites.
    cbn [draggedProperty favourites setDraggedProperty].
    now destruct (find _ _).
  - intros H. unfold dispatch; cbn [handlers fold_left].
    unfold handleDropOnFavourites, handleDropRemove. rewrite H.
    destruct s; cbn in *; now subst.
Qed.

Lemma drop_on_favourites_is_add_witness :
  draggedProperty Sample.loaded = None
  /\ dispatch DropOnFavourites Sample.loaded = Sample.loaded
  /\ favourites (dispatch DropOnFavourites (dispatch (DragStart Sample.villa) Sample.loaded))
     = [Sample.villa].
Proof.
  split; [reflexivity|].
  split.
  - now apply (proj2 (drop_on_favourites_is_add Sample.loaded Sample.villa)).
  - reflexivity.
Defined.

(** X10.  A card dragged and dropped on the remove zone leaves what a heart
    click leaves for it: a favourite is removed, and an entry that was no
    favourite becomes one, since the drop reaches the favourites card
    too. *)
Theorem drop_on_remove_zone_is_toggle (s : AppState) (p : Property) :
  dispatch DropOnRemoveZone (dispatch (DragStart p) s)
  = setDraggedProperty None (run (onToggleFavourite p) s)
  /\ isFavourite
       (favourites (dispatch DropOnRemoveZone (dispatch (DragStart p) s))) (id p)
     = negb (isFavourite (favourites s) (id p)).
Proof.
  assert (E : dispatch DropOnRemoveZone (dispatch (DragStart p) s)
              = setDraggedProperty None (run (onToggleFavourite p) s)).
  { unfold dispatch; cbn [handlers fold_left].
    unfold handleDropOnFavourites, handleDropRemove, handleDragStart, run,
      onToggleFavourite, addToFavourites, removeFromFavourites.
    cbn [draggedProperty favourites setDraggedProperty setFavourites].
    destruct (existsb (has_id (id p)) (favourites s)) eqn:Ex.
    - destruct (find (has_id (id p)) (favourites s)) eqn:Ef; [reflexivity|].
      apply find_has_id_existsb in Ef. congruence.
    - now rewrite (proj2 (find_has_id_existsb _ _) Ex). }
  split; [exact E|].
  rewrite E. cbn [favourites setDraggedProperty].
  apply onToggleFavourite_flips.
Qed.

(** X12.  After every event the stored entry is the rendered list of
    favourites, so a page reload starts from the first render with the
    same favourites, and leaves the stored entry as it was. *)
Theorem favourites_survive_reload (w : World) :
  reachable w ->
  storage w = Some (favourites (app w))
  /\ app (step w Reload) = setFavourites (favourites (app w)) initialState
  /\ storage (step w Reload) = storage w.
Proof.
  intros H. destruct (reachable_invariant w H) as [Hst _].
  split; [exact Hst|]. cbn [step]. rewrite Hst. split; reflexivity.
Qed.

Lemma favourites_survive_reload_witness :
  reachable Scenario.visited
  /\ favourites (app (step Scenario.visited Reload)) = [Sample.villa]
  /\ filters (app (step Scenario.visited Reload)) = Filters.empty.
Proof.
  assert (H : reachable Scenario.visited)
    by (repeat apply reach_step; apply reach_first).
  split; [exact H|].
  destruct (favourites_survive_reload Scenario.visited H) as (_ & E & _).
  rewrite E. split; reflexivity.
Defined.

(* ================================================================= *)
(** ** The screens *)

Ltac event_cases :=
  unfold dispatch; cbn [handlers fold_left];
  unfold onToggleFavourite, handleDropOnFavourites, handleDropRemove,
    addToFavourites, clearFavourites;
  repeat match goal with
         | |- context [match ?x with _ => _ end] => destruct x
         end;
  try reflexivity.

Lemma dispatch_keeps_failure (e : Event) (s : AppState) :
  loading s = false ->
  (exists message, error s = Some message /\ truthy message = true) ->
  loading (dispatch e s) = false
  /\ exists message, error (dispatch e s) = Some message /\ truthy message = true.
Proof.
  intros Hl He.
  destruct e; try (split; [|eexists; split; reflexivity]; reflexivity);
    (split; [event_cases; assumption|]);
    destruct He as [m [He Hm]]; exists m; (split; [|exact Hm]);
    event_cases; assumption.
Qed.

Lemma dispatchAll_keeps_failure (es : list Event) (s : AppState) :
  loading s = false ->
  (exists message, error s = Some message /\ truthy message = true) ->
  loading (dispatchAll es s) = false
  /\ exists message,
       error (dispatchAll es s) = Some message /\ truthy message = true.
Proof.
  revert s. induction es as [|e es IH]; intros s Hl He; [now split|].
  cbn [dispatchAll fold_left]. fold (dispatchAll es (dispatch e s)).
  destruct (dispatch_keeps_failure e s Hl He) as [Hl' He'].
  now apply IH.
Qed.

(** X13.  After a failed load no handler of the component clears the
    error or sets [loading] again: until the page is reloaded, whatever
    events of the component follow, it renders the error box, or the
    detail page of a selected entry, never the search screen or the
    spinner.  The Retry button of the error box reloads the page: the
    component is then at its first render again, with the spinner and no
    error. *)
Theorem failed_load_is_final (w : World) (es : list Event) :
  let failed := dispatchAll es (dispatch CatalogFailed (app w)) in
  let retried := step (mkWorld failed (storage w)) Reload in
  loading failed = false
  /\ (exists message,
        error failed = Some message
        /\ (view failed = ScreenError message
            \/ exists property, view failed = ScreenDetail property))
  /\ view failed <> ScreenMain
  /\ view failed <> ScreenLoading
  /\ view (app retried) = ScreenLoading
  /\ error (app retried) = None
  /\ properties (app retried) = [].
Proof.
  cbn zeta.
  destruct (dispatchAll_keeps_failure es (dispatch CatalogFailed (app w)))
    as [Hl [m [He Hm]]]; [reflexivity | eexists; split; reflexivity |].
  unfold view at 1 2 3 4. rewrite Hl, He, Hm.
  split; [reflexivity|]. split.
  { exists m. split; [reflexivity|].
    destruct (selectedProperty _) as [q|]; [right; now exists q | now left]. }
  split; [destruct (selectedProperty _); discriminate|].
  split; [destruct (selectedProperty _); discriminate|].
  cbn [step storage]. destruct (storage w); repeat split.
Qed.

Lemma dispatch_keeps_ready (e : Event) (s : AppState) :
  e <> CatalogFailed ->
  loading s = false -> error s = None ->
  loading (dispatch e s) = false /\ error (dispatch e s) = None.
Proof.
  intros Hne Hl He.
  destruct e; try contradiction; split; event_cases; assumption.
Qed.

(** X14.  Once the catalog has arrived with no failure recorded, and as long
    as no failure follows, the component renders the search screen, or
    the detail page of a selected entry: never the spinner, never the
    error box. *)
Theorem loaded_catalog_shows_search (s : AppState) (es : list Event)
    (data : list Property) :
  error s = None ->
  ~ In CatalogFailed es ->
  view (dispatchAll es (dispatch (CatalogLoaded data) s)) = ScreenMain
  \/ exists property,
       view (dispatchAll es (dispatch (CatalogLoaded data) s))
       = ScreenDetail property.
Proof.
  intros He Hes.
  assert (H : forall t, loading t = false -> error t = None ->
                        loading (dispatchAll es t) = false
                        /\ error (dispatchAll es t) = None).
  { induction es as [|e es IH]; intros t Hl Ht; [now split|].
    cbn [dispatchAll fold_left]. fold (dispatchAll es (dispatch e t)).
    destruct (dispatch_keeps_ready e t) as [Hl' He']; try assumption.
    - intros ->. apply Hes. now left.
    - apply IH; [|assumption|assumption]. intros Hin. apply Hes. now right. }
  destruct (H (dispatch (CatalogLoaded data) s) eq_refl He) as [Hl Hn].
  unfold view. rewrite Hl, Hn.
  destruct (selectedProperty _) as [q|]; [right; now exists q | now left].
Qed.

Lemma loaded_catalog_shows_search_witness :
  error initialState = None
  /\ ~ In CatalogFailed Scenario.browsing
  /\ view (dispatchAll Scenario.browsing
             (dispatch (CatalogLoaded Sample.catalog) initialState))
     = ScreenMain.
Proof.
  assert (Hes : ~ In CatalogFailed Scenario.browsing).
  { intros Hin. cbn in Hin.
    repeat (destruct Hin as [Hin | Hin]; [discriminate|]). exact Hin. }
  split; [reflexivity|]. split; [exact Hes|].
  destruct (loaded_catalog_shows_search initialState Scenario.browsing
              Sample.catalog eq_refl Hes) as [H | [q H]];
    [exact H | discriminate H].
Defined.

(* ================================================================= *)
(** ** The cards *)

Lemma firstSegment_commaFree (s : string) : commaFree (firstSegment s) = true.
Proof.
  induction s as [|c r IH]; cbn; [reflexivity|].
  destruct (Ascii.eqb c ",") eqn:E; cbn; [reflexivity|].
  now rewrite E, IH.
Qed.

Lemma firstSegment_split (s : string) :
  exists rest,
    s = (firstSegment s ++ rest)%string
    /\ (rest = "" \/ exists r, rest = String "," r).
Proof.
  induction s as [|c r IH]; cbn.
  - exists "". split; [reflexivity | now left].
  - destruct (Ascii.eqb_spec c ",") as [->|Hc]; cbn.
    + exists (String "," r). split; [reflexivity | right; now exists r].
    + destruct IH as [rest [E Hr]]. exists rest. split; [now rewrite <- E | exact Hr].
Qed.

Lemma firstSegment_whole (s : string) :
  commaFree s = true -> firstSegment s = s.
Proof.
  induction s as [|c r IH]; cbn; [reflexivity|].
  destruct (Ascii.eqb c ","); cbn; [discriminate|].
  intros H. now rewrite IH.
Qed.

(** X15.  The place shown on a card is the location up to its first comma:
    it has no comma, the location is that text followed by nothing or by
    a comma and more, and a location with no comma is shown whole. *)
Theorem cardLocation_is_first_segment (p : Property) :
  commaFree (cardLocation p) = true
  /\ (exists rest,
        location p = (cardLocation p ++ rest)%string
        /\ (rest = "" \/ exists r, rest = String "," r))
  /\ (commaFree (location p) = true -> cardLocation p = location p).
Proof.
  unfold cardLocation. split; [apply firstSegment_commaFree|].
  split; [apply firstSegment_split | apply firstSegment_whole].
Qed.

Lemma cardLocation_is_first_segment_witness :
  cardLocation Sample.semi = "Petts Wood Road"
  /\ commaFree (cardLocation Sample.semi) = true
  /\ exists rest, location Sample.semi = (cardLocation Sample.semi ++ rest)%string.
Proof.
  split; [reflexivity|].
  destruct (cardLocation_is_first_segment Sample.semi) as (H1 & (rest & H2 & _) & _).
  split; [exact H1 | now exists rest].
Defined.

(** X16.  The image of a card is never the empty text.  It is the image the
    detail page opens on whenever that one is a text that is not empty,
    and both are the default image for an entry with no [images]
    field. *)
Theorem card_image_agrees_with_gallery (p : Property) :
  truthy (cardImageUrl p) = true
  /\ (forall u, galleryImage p initialDetail = Some u -> truthy u = true ->
                cardImageUrl p = u)
  /\ (images p = None ->
      galleryImage p initialDetail = Some (cardImageUrl p)).
Proof.
  unfold cardImageUrl, galleryImage, detailImages. cbn.
  destruct (images p) as [[|u imgs]|]; cbn.
  - split; [reflexivity|]. split; [discriminate | discriminate].
  - split; [now destruct (truthy u) eqn:E|].
    split; [|discriminate]. intros v [= <-] Hv. now rewrite Hv.
  - split; [reflexivity|]. split; [|reflexivity]. now intros v [= <-] _.
Qed.

Lemma card_image_agrees_with_gallery_witness :
  galleryImage Sample.semi initialDetail = Some "/images/prop1/1.jpg"
  /\ cardImageUrl Sample.semi = "/images/prop1/1.jpg".
Proof.
  split; [reflexivity|].
  now apply (proj1 (proj2 (card_image_agrees_with_gallery Sample.semi))).
Defined.

(* ================================================================= *)
(** ** More on the gallery *)

Lemma detailDispatch_index (p : Property) (e : DetailEvent) (d : DetailState)
    (i : Z) :
  currentImageIndex d = Some i -> 0 <= i -> i = 0 \/ i < count p ->
  exists j,
    currentImageIndex (detailDispatch p e d) = Some j
    /\ 0 <= j /\ (j = 0 \/ j < count p).
Proof.
  intros Hd H0 Hi. unfold detailDispatch, controlsShown.
  destruct e as [| |index|tab].
  - destruct (Z.ltb_spec 1 (count p)) as [Hc|Hc]; [|now exists i].
    unfold prevImage, js_rem. rewrite Hd. cbn [currentImageIndex].
    destruct (Z.eqb_spec (count p) 0); [lia|].
    rewrite Z.rem_mod_nonneg by lia.
    eexists. split; [reflexivity|].
    destruct (Z.mod_pos_bound (i - 1 + count p) (count p)); [lia|]. tauto.
  - destruct (Z.ltb_spec 1 (count p)) as [Hc|Hc]; [|now exists i].
    unfold nextImage, js_rem. rewrite Hd. cbn [currentImageIndex].
    destruct (Z.eqb_spec (count p) 0); [lia|].
    rewrite Z.rem_mod_nonneg by lia.
    eexists. split; [reflexivity|].
    destruct (Z.mod_pos_bound (i + 1) (count p)); [lia|]. tauto.
  - destruct (Z.ltb_spec 1 (count p)) as [Hc|Hc]; cbn [andb]; [|now exists i].
    destruct (Nat.ltb_spec index (List.length (detailImages p))) as [Hx|Hx];
      [|now exists i].
    exists (Z.of_nat index). split; [reflexivity|]. unfold count. lia.
  - exists i. now split.
Qed.

(** X17.  The index of the gallery stays an index: after any clicks on the
    controls the detail page renders, it is a number, zero or within the
    gallery, never [NaN]; and when the gallery has an image, the image
    shown is one of the gallery. *)
Theorem gallery_index_stays_valid (p : Property) (es : list DetailEvent) :
  exists i,
    currentImageIndex (detailDispatchAll p es initialDetail) = Some i
    /\ 0 <= i
    /\ (i = 0 \/ i < count p)
    /\ (detailImages p <> [] ->
        exists u,
          galleryImage p (detailDispatchAll p es initialDetail) = Some u
          /\ In u (detailImages p)).
Proof.
  assert (Inv : forall d i,
             currentImageIndex d = Some i -> 0 <= i -> i = 0 \/ i < count p ->
             exists j,
               currentImageIndex (detailDispatchAll p es d) = Some j
               /\ 0 <= j /\ (j = 0 \/ j < count p)).
  { induction es as [|e es IH]; intros d i Hd H0 Hi; [now exists i|].
    cbn [detailDispatchAll fold_left].
    fold (detailDispatchAll p es (detailDispatch p e d)).
    destruct (detailDispatch_index p e d i Hd H0 Hi) as (j & Hj & Hj0 & Hjc).
    now apply (IH _ j). }
  destruct (Inv initialDetail 0 eq_refl (Z.le_refl 0) (or_introl eq_refl))
    as (i & Hi & H0 & Hc).
  exists i. split; [exact Hi|]. split; [exact H0|]. split; [exact Hc|].
  intros Hne. unfold galleryImage. rewrite Hi.
  destruct (Z.ltb_spec i 0); [lia|].
  assert (Hlt : (Z.to_nat i < List.length (detailImages p))%nat).
  { unfold count in Hc. destruct (detailImages p); [contradiction|].
    cbn [List.length] in *. lia. }
  destruct (nth_error (detailImages p) (Z.to_nat i)) as [u|] eqn:E.
  - exists u. split; [reflexivity|]. now apply nth_error_In in E.
  - apply nth_error_None in E. lia.
Qed.

Lemma gallery_index_stays_valid_witness :
  detailImages Sample.semi <> []
  /\ exists u,
       galleryImage Sample.semi
         (detailDispatchAll Sample.semi Scenario.gallerySession initialDetail)
       = Some u
       /\ In u (detailImages Sample.semi).
Proof.
  assert (Hne : detailImages Sample.semi <> []) by discriminate.
  split; [exact Hne|].
  destruct (gallery_index_stays_valid Sample.semi Scenario.gallerySession)
    as (i & _ & _ & _ & H).
  exact (H Hne).
Defined.

(* ================================================================= *)
(** ** The order of the favourites *)

(** X11.  No event reorders the favourites: after any event the list
    is the old one with some entries left out, in the old order, followed
    by nothing or by one entry whose identifier was not in the old
    list. *)
Theorem favourites_never_reorder (e : Event) (s : AppState) :
  exists keep extra,
    favourites (dispatch e s) = filter keep (favourites s) ++ extra
    /\ (extra = []
        \/ exists p, extra = [p] /\ isFavourite (favourites s) (id p) = false).
Proof.
  assert (Same : exists keep extra,
             favourites s = filter keep (favourites s) ++ extra
             /\ (extra = []
                 \/ exists p, extra = [p]
                              /\ isFavourite (favourites s) (id p) = false)).
  { exists (fun _ => true), []. rewrite app_nil_r, filter_true by reflexivity.
    split; [reflexivity | now left]. }
  assert (Add : forall p, find (has_id (id p)) (favourites s) = None ->
             exists keep extra,
               favourites s ++ [p] = filter keep (favourites s) ++ extra
               /\ (extra = []
                   \/ exists q, extra = [q]
                                /\ isFavourite (favourites s) (id q) = false)).
  { intros p Hp. exists (fun _ => true), [p]. rewrite filter_true by reflexivity.
    split; [reflexivity | right]. exists p. split; [reflexivity|].
    now apply find_has_id_existsb. }
  assert (Del : forall g, exists keep extra,
             filter g (favourites s) = filter keep (favourites s) ++ extra
             /\ (extra = []
                 \/ exists p, extra = [p]
                              /\ isFavourite (favourites s) (id p) = false)).
  { intros g. exists g, []. rewrite app_nil_r.
    split; [reflexivity | now left]. }
  destruct e; try exact Same; unfold dispatch; cbn [handlers fold_left].
  - unfold onToggleFavourite. destruct (existsb _ _); [apply Del|].
    unfold addToFavourites.
    destruct (find _ _) eqn:E; [exact Same | now apply Add].
  - apply Del.
  - destruct confirmed; [|exact Same].
    exists (fun _ => false), []. rewrite filter_false by reflexivity.
    split; [reflexivity | now left].
  - unfold handleDropOnFavourites.
    destruct (draggedProperty s); [|exact Same].
    destruct (find _ _) eqn:E; [exact Same | now apply Add].
  - unfold handleDropOnFavourites, handleDropRemove.
    destruct (draggedProperty s); [|exact Same].
    destruct (find _ _) eqn:E; [apply Del | now apply Add].
Qed.
